(** * PluginService: loading and running plugins

    A shallow embedding of [packages/lib/services/plugins/PluginService.ts]
    and the properties of its loader, path resolver and batch orchestrator.

    JavaScript strings are modelled as Rocq strings whose characters are
    code units below 256. The object [plugins_], used as a map from
    identifiers to entities, is a finite map of its own keys; reading it
    goes through [registryRead], which also finds what a plain object
    inherits from its prototype. The [async] methods run one after the
    other, so a method is a function from the state of the service to a
    result and a new state. *)

From Stdlib Require Import ZArith String Ascii List Floats Lia.
From stdpp Require Import base option list strings gmap.

Set Warnings "-register-all".

Local Open Scope string_scope.
Local Open Scope Z_scope.

(** ** JavaScript string primitives used by the service *)

Module JsString.

(** White space and line terminators removed by [String.prototype.trim],
    restricted to code units below 256: TAB, LF, VT, FF, CR, SP, NBSP. *)
Definition isWhiteSpace (c : ascii) : bool :=
  let n := nat_of_ascii c in
  ((9 <=? n)%nat && (n <=? 13)%nat) || (n =? 32)%nat || (n =? 160)%nat.

Fixpoint trimStart (s : string) : string :=
  match s with
  | EmptyString => EmptyString
  | String c r => if isWhiteSpace c then trimStart r else s
  end.

Fixpoint trimEnd (s : string) : string :=
  match s with
  | EmptyString => EmptyString
  | String c r =>
      match trimEnd r with
      | EmptyString => if isWhiteSpace c then EmptyString else String c EmptyString
      | r' => String c r'
      end
  end.

Definition trim (s : string) : string := trimEnd (trimStart s).

(** [s.split(sep)] for a separator of one character. *)
Fixpoint split (sep : ascii) (s : string) : list string :=
  match s with
  | EmptyString => [EmptyString]
  | String c r =>
      if Ascii.eqb c sep then EmptyString :: split sep r
      else match split sep r with
           | h :: t => String c h :: t
           | [] => [String c EmptyString]
           end
  end.

(** [a.join(sep)] *)
Definition join (sep : string) (a : list string) : string := String.concat sep a.

(** [s.indexOf(needle)]: the first position of [needle], or -1. *)
Definition indexOf (needle s : string) : Z :=
  match String.index 0 needle s with
  | Some n => Z.of_nat n
  | None => -1
  end.

Definition toLowerCaseChar (c : ascii) : ascii :=
  let n := nat_of_ascii c in
  if ((65 <=? n)%nat && (n <=? 90)%nat)
     || ((192 <=? n)%nat && (n <=? 222)%nat && negb (n =? 215)%nat)
  then ascii_of_nat (n + 32) else c.

Fixpoint toLowerCase (s : string) : string :=
  match s with
  | EmptyString => EmptyString
  | String c r => String (toLowerCaseChar c) (toLowerCase r)
  end.

Fixpoint rev_string (acc s : string) : string :=
  match s with
  | EmptyString => acc
  | String c r => rev_string (String c acc) r
  end.

(** [s.endsWith(suffix)] *)
Definition endsWith (suffix s : string) : bool :=
  String.prefix (rev_string EmptyString suffix) (rev_string EmptyString s).

(** The text between double quotes. *)
Definition quoted (s : string) : string :=
  String "034" EmptyString ++ s ++ String "034" EmptyString.

(** [s.substr(start, len)] for in-range, non-negative arguments. *)
Definition substr (start len : nat) (s : string) : string :=
  String.substring start len s.

End JsString.

Import JsString.

(** ** Errors

    Everything the service throws is a JavaScript [Error]; the constructors
    record where it was raised. *)

Inductive Exn : Type :=
  | ManifestNotFound                         (* Error('Could not find manifest') *)
  | InvalidManifestJson (msg : string)       (* SyntaxError of JSON.parse *)
  | ManifestSchemaInvalid (msg : string)     (* thrown by manifestFromObject *)
  | DuplicateIdentifier (pluginId : string)  (* Error('There is already a plugin with this ID: ...') *)
  | IOError (msg : string)                   (* rejected by the file-system driver *)
  | TypeError (msg : string)                 (* property access on null, assignment to a primitive *)
  | OtherError (msg : string).               (* compare-versions, path-utils, the runner *)

Definition errorMessage (e : Exn) : string :=
  match e with
  | ManifestNotFound => "Could not find manifest"
  | DuplicateIdentifier pluginId => "There is already a plugin with this ID: " ++ pluginId
  | InvalidManifestJson msg | ManifestSchemaInvalid msg | IOError msg
  | TypeError msg | OtherError msg => msg
  end.

(** ** parsePluginJsBundle *)

Record Bundle : Type := mkBundle { scriptText : string; manifestText : string }.

Inductive ScanState : Type := StateStarted | StateInManifest.

Definition openingMarker : string := "/* joplin-manifest:".
Definition closingMarker : string := "*/".

(** The body of the [for (let line of lines)] loop; [manifestText] is the
    array being pushed to, [break] returns it as it stands. *)
Fixpoint scanLines (state : ScanState) (manifestText : list string)
    (lines : list string) : list string :=
  match lines with
  | [] => manifestText
  | l :: rest =>
      let line := trim l in
      match state with
      | StateStarted =>
          if String.eqb line openingMarker
          then scanLines StateInManifest manifestText rest
          else scanLines StateStarted manifestText rest
      | StateInManifest =>
          if indexOf closingMarker line =? 0
          then manifestText
          else scanLines StateInManifest (manifestText ++ [line]) rest
      end
  end.

Definition parsePluginJsBundle (jsBundleString : string) : Exn + Bundle :=
  let scriptText := jsBundleString in
  let lines := split "010" scriptText in
  let manifestText := scanLines StateStarted [] lines in
  if (length manifestText =? 0)%nat then inl ManifestNotFound
  else inr {| scriptText := scriptText; manifestText := join (String "010" EmptyString) manifestText |}.

Definition isOpeningLine (l : string) : bool := String.eqb (trim l) openingMarker.
Definition isClosingLine (l : string) : bool := indexOf closingMarker (trim l) =? 0.

Definition lacksOpeningMarker (bundle : string) : Prop :=
  existsb isOpeningLine (split "010" bundle) = false.
Definition lacksClosingMarker (bundle : string) : Prop :=
  existsb isClosingLine (split "010" bundle) = false.

(** ** Values produced by JSON.parse *)

Inductive JSValue : Type :=
  | JNull
  | JBool (b : bool)
  | JNum (n : float)
  | JStr (s : string)
  | JArr (items : list JSValue) (props : list (string * JSValue))
  | JObj (props : list (string * JSValue)).

Fixpoint lookupProp (k : string) (props : list (string * JSValue)) : option JSValue :=
  match props with
  | [] => None
  | (k', v) :: rest => if String.eqb k k' then Some v else lookupProp k rest
  end.

Fixpoint assignProp (k : string) (v : JSValue) (props : list (string * JSValue))
    : list (string * JSValue) :=
  match props with
  | [] => [(k, v)]
  | (k', v') :: rest =>
      if String.eqb k k' then (k, v) :: rest else (k', v') :: assignProp k v rest
  end.

(** [o.k] for an own-property name [k]; [None] is [undefined]. *)
Definition getProp (o : JSValue) (k : string) : Exn + option JSValue :=
  match o with
  | JNull => inl (TypeError ("Cannot read property '" ++ k ++ "' of null"))
  | JObj props | JArr _ props => inr (lookupProp k props)
  | JBool _ | JNum _ | JStr _ => inr None
  end.

(** [o.k = v] in strict mode. *)
Definition setProp (o : JSValue) (k : string) (v : JSValue) : Exn + JSValue :=
  match o with
  | JObj props => inr (JObj (assignProp k v props))
  | JArr items props => inr (JArr items (assignProp k v props))
  | JNull | JBool _ | JNum _ | JStr _ =>
      inl (TypeError ("Cannot create property '" ++ k ++ "'"))
  end.

(** ToBoolean *)
Definition truthy (v : option JSValue) : bool :=
  match v with
  | None | Some JNull => false
  | Some (JBool b) => b
  | Some (JNum n) => negb (PrimFloat.eqb n 0%float || PrimFloat.is_nan n)
  | Some (JStr s) => negb (String.eqb s EmptyString)
  | Some (JArr _ _) | Some (JObj _) => true
  end.

(** Lines 129-134 of the service: a manifest object whose
    [app_min_version] is missing or falsy gets "1.4", and the flag
    [showAppMinVersionNotice] is raised. *)
Definition defaultAppMinVersion (manifestObj : JSValue) : Exn + (JSValue * bool) :=
  match getProp manifestObj "app_min_version" with
  | inl e => inl e
  | inr field =>
      if negb (truthy field)
      then match setProp manifestObj "app_min_version" (JStr "1.4") with
           | inl e => inl e
           | inr manifestObj => inr (manifestObj, true)
           end
      else inr (manifestObj, false)
  end.

(** ** The extension entity *)

Module Plugin.

(** Modelled from the spec: the [Plugin] class ([./Plugin]) is not among
    the sources. An entity has an identifier, a base directory, a typed
    manifest, the raw script text and an enabled flag that defaults to
    [true]; a deprecation notice is attached to the entity, tagged with
    the application version at which the deprecated use becomes an error.
    The logger handle and the dispatch closure given to the constructor
    are the service's own logger and store. *)
Record t (Manifest : Type) : Type := mk {
  id : string;
  baseDir : string;
  manifest : Manifest;
  scriptText : string;
  enabled : bool;
  notices : list (string * string)
}.
Arguments mk {Manifest}.
Arguments id {Manifest}.
Arguments baseDir {Manifest}.
Arguments manifest {Manifest}.
Arguments scriptText {Manifest}.
Arguments enabled {Manifest}.
Arguments notices {Manifest}.

(** [new Plugin(id, baseDir, manifest, scriptText, logger, dispatch)] *)
Definition new {Manifest} (id baseDir : string) (manifest : Manifest)
    (scriptText : string) : t Manifest :=
  mk id baseDir manifest scriptText true [].

(** [plugin.enabled = b] *)
Definition setEnabled {Manifest} (b : bool) (p : t Manifest) : t Manifest :=
  mk (id p) (baseDir p) (manifest p) (scriptText p) b (notices p).

(** [plugin.deprecationNotice(goneInVersion, message)] *)
Definition deprecationNotice {Manifest} (goneInVersion message : string)
    (p : t Manifest) : t Manifest :=
  mk (id p) (baseDir p) (manifest p) (scriptText p) (enabled p)
     (notices p ++ [(goneInVersion, message)]).

End Plugin.

Abbreviation Plugin := Plugin.t.

(** ** Collaborators

    Code the service calls but does not own. *)

(** [manifestFromObject] and the one manifest field the service reads. *)
Class ManifestValidator (PluginManifest : Type) : Type := {
  app_min_version : PluginManifest -> string;
  manifestFromObject : JSValue -> Exn + PluginManifest
}.

(** [JSON.parse], and the packages compare-versions and uslug. *)
Class Libraries : Type := {
  JSON_parse : string -> Exn + JSValue;
  compareVersions : string -> string -> Exn + Z;
  uslug : string -> string
}.

(** [rtrimSlashes], [filename] and [dirname] of path-utils. *)
Class PathUtils : Type := {
  rtrimSlashes : string -> string;
  filename : string -> Exn + string;
  dirname : string -> Exn + string
}.

Record Stat : Type := mkStat { stat_path : string; stat_isDirectory : bool }.

(** [shim.fsDriver()] *)
Class FsDriver : Type := {
  fs_exists : string -> bool;
  fs_readFile : string -> Exn + string;
  fs_readDirStats : string -> Exn + list Stat
}.

(** [BasePluginRunner.run]: [None] when the run resolves. *)
Class BasePluginRunner (PluginManifest : Type) : Type := {
  runner_run : Plugin PluginManifest -> option Exn
}.

(** The members of the [Plugin] class, which is not among the sources:
    [inheritedThrough plugin name] says whether [registry[name]] is truthy
    once [plugin] has become the prototype of the registry object, for a
    [name] that is not an own key of the registry. *)
Class PluginMembers (PluginManifest : Type) : Type := {
  inheritedThrough : Plugin PluginManifest -> string -> bool
}.

(** ** Reading a plain object

    [plugins_] starts as [{}], whose prototype is [Object.prototype]. *)

(** The properties of [Object.prototype]; all of them are truthy. *)
Definition objectPrototypeNames : list string :=
  [ "constructor"; "hasOwnProperty"; "isPrototypeOf"; "propertyIsEnumerable";
    "toLocaleString"; "toString"; "valueOf";
    "__defineGetter__"; "__defineSetter__"; "__lookupGetter__"; "__lookupSetter__";
    "__proto__" ].

Definition inheritedFromObject (name : string) : bool :=
  existsb (String.eqb name) objectPrototypeNames.

(** What [registry[name]] can be when it is truthy: an entity stored by
    [runPlugin], or something inherited. *)
Inductive RegistryValue (PluginManifest : Type) : Type :=
  | StoredEntity (plugin : Plugin PluginManifest)
  | InheritedProperty (name : string).
Arguments StoredEntity {PluginManifest}.
Arguments InheritedProperty {PluginManifest}.

(** ** The store and the logger, as seen from the service *)

Record PluginStoreEntry : Type := mkEntry {
  entry_id : string;
  views : gmap string JSValue;
  contentScripts : gmap string JSValue
}.

Record Action : Type := mkAction { type : string; plugin : PluginStoreEntry }.

Inductive LogLevel : Type := LevelInfo | LevelWarn | LevelError.

Record LogEntry : Type := mkLog {
  level : LogLevel;
  message : string;
  thrown : option Exn   (* the error object passed after the message *)
}.

(** ** Service state and its effects

    [plugins_] is the registry: the entities assigned to the object by
    [this.plugins_[id] = plugin], by identifier. The assignment under the
    name [__proto__] makes the entity the prototype of the object instead
    of an own key; the map keeps it under that name, and [registryRead]
    reads the map accordingly. The store, the logger and the runner are
    seen through what the service sends them, in order; [constructedIds]
    lists the identifiers of the entities built by [new Plugin]. *)

Record ServiceState (PluginManifest : Type) : Type := mkState {
  appVersion_ : string;
  plugins_ : gmap string (Plugin PluginManifest);
  dispatched : list Action;
  logged : list LogEntry;
  constructedIds : list string;
  runnerCalls : list (Plugin PluginManifest)
}.
Arguments mkState {PluginManifest}.
Arguments appVersion_ {PluginManifest}.
Arguments plugins_ {PluginManifest}.
Arguments dispatched {PluginManifest}.
Arguments logged {PluginManifest}.
Arguments constructedIds {PluginManifest}.
Arguments runnerCalls {PluginManifest}.

(** A computation that reads and updates a state [S] and either returns
    or throws; a throw keeps the updates made before it. *)
Definition Eff (S A : Type) : Type := S -> (Exn + A) * S.

Definition throw {S A} (e : Exn) : Eff S A := fun st => (inl e, st).

(** A pure fallible call. *)
Definition lift {S A} (r : Exn + A) : Eff S A := fun st => (r, st).

Definition gets {S A} (f : S -> A) : Eff S A := fun st => (inr (f st), st).

Definition modify {S} (f : S -> S) : Eff S unit := fun st => (inr tt, f st).

(** [try { body } catch (error) { handler error }] *)
Definition tryCatch {S A} (body : Eff S A) (handler : Exn -> Eff S A) : Eff S A :=
  fun st =>
    match body st with
    | (inl error, st') => handler error st'
    | (inr a, st') => (inr a, st')
    end.

#[export] Instance Eff_ret {S} : MRet (Eff S) := fun A a st => (inr a, st).

#[export] Instance Eff_bind {S} : MBind (Eff S) := fun A B k m st =>
  match m st with
  | (inl e, st') => (inl e, st')
  | (inr a, st') => k a st'
  end.

Section PluginService.

Context {PluginManifest : Type}.
Context `{!ManifestValidator PluginManifest, !Libraries, !PathUtils,
          !FsDriver, !BasePluginRunner PluginManifest,
          !PluginMembers PluginManifest}.

Local Abbreviation State := (ServiceState PluginManifest).
Local Abbreviation M := (Eff State).

(** [this.store_.dispatch(action)] *)
Definition dispatch (action : Action) : M unit :=
  modify (fun st => mkState (appVersion_ st) (plugins_ st)
                      (dispatched st ++ [action]) (logged st)
                      (constructedIds st) (runnerCalls st)).

(** [this.logger().info(...)], [.error(...)]; of the values passed after
    the message only a caught error is kept. *)
Definition log (entry : LogEntry) : M unit :=
  modify (fun st => mkState (appVersion_ st) (plugins_ st)
                      (dispatched st) (logged st ++ [entry])
                      (constructedIds st) (runnerCalls st)).

Definition logInfo (msg : string) : M unit := log (mkLog LevelInfo msg None).
Definition logError (msg : string) (error : Exn) : M unit :=
  log (mkLog LevelError msg (Some error)).

(** [new Plugin(pluginId, baseDir, manifest, scriptText, ...)] *)
Definition newPlugin (pluginId baseDir : string) (manifest : PluginManifest)
    (scriptText : string) : M (Plugin PluginManifest) :=
  modify (fun st => mkState (appVersion_ st) (plugins_ st)
                      (dispatched st) (logged st)
                      (constructedIds st ++ [pluginId]) (runnerCalls st));;
  mret (Plugin.new pluginId baseDir manifest scriptText).

(** [this.plugins_[plugin.id] = plugin] *)
Definition registerPlugin (plugin : Plugin PluginManifest) : M unit :=
  modify (fun st => mkState (appVersion_ st)
                      (<[Plugin.id plugin := plugin]> (plugins_ st))
                      (dispatched st) (logged st)
                      (constructedIds st) (runnerCalls st)).

(** [this.runner_.run(plugin, pluginApi)] *)
Definition runnerRun (plugin : Plugin PluginManifest) : M unit :=
  modify (fun st => mkState (appVersion_ st) (plugins_ st)
                      (dispatched st) (logged st)
                      (constructedIds st) (runnerCalls st ++ [plugin]));;
  match runner_run plugin with
  | Some e => throw e
  | None => mret tt
  end.

(** The service after [initialize(appVersion, ...)]: an empty registry,
    and nothing sent yet to the store, the logger or the runner. *)
Definition initialize (appVersion : string) : State :=
  mkState appVersion ∅ [] [] [] [].

(** [this.plugins_[name]]; [None] stands for a falsy value. An own key
    gives its entity. Any other name is looked up in the prototype: the
    entity stored under [__proto__] when there is one, [Object.prototype]
    otherwise. *)
Definition registryRead (registry : gmap string (Plugin PluginManifest))
    (name : string) : option (RegistryValue PluginManifest) :=
  match registry !! name with
  | Some plugin => Some (StoredEntity plugin)
  | None =>
      match registry !! "__proto__" with
      | Some prototype =>
          if inheritedThrough prototype name then Some (InheritedProperty name) else None
      | None =>
          if inheritedFromObject name then Some (InheritedProperty name) else None
      end
  end.

Definition makePluginId (source : string) : string :=
  substr 0 32 (uslug source).

Definition appMinVersionNotice : string :=
  "The manifest must contain an " ++ quoted "app_min_version"
  ++ " key, which should be the minimum version of the app you support. It was automatically set to "
  ++ quoted "1.4" ++ ", but please update your manifest.json file.".

Definition loadPlugin (pluginId baseDir manifestText scriptText : string)
    : M (Plugin PluginManifest) :=
  let baseDir := rtrimSlashes baseDir in
  manifestObj ← lift (JSON_parse manifestText);
  '(manifestObj, showAppMinVersionNotice) ← lift (defaultAppMinVersion manifestObj);
  manifest ← lift (manifestFromObject manifestObj);
  registry ← gets plugins_;
  if bool_decide (is_Some (registryRead registry pluginId))
  then throw (DuplicateIdentifier pluginId)
  else
    plugin ← newPlugin pluginId baseDir manifest scriptText;
    appVersion ← gets appVersion_;
    c ← lift (compareVersions appVersion (app_min_version manifest));
    plugin ←
      (if c <? 0
       then logInfo ("PluginService: Plugin " ++ quoted pluginId
                     ++ " was disabled because it requires a newer version of Joplin.");;
            mret (Plugin.setEnabled false plugin)
       else dispatch (mkAction "PLUGIN_ADD" (mkEntry pluginId ∅ ∅));;
            mret plugin);
    mret (if showAppMinVersionNotice : bool
          then Plugin.deprecationNotice "1.5" appMinVersionNotice plugin
          else plugin).

Definition loadPluginFromString (pluginId baseDir jsBundleString : string)
    : M (Plugin PluginManifest) :=
  let baseDir := rtrimSlashes baseDir in
  r ← lift (parsePluginJsBundle jsBundleString);
  loadPlugin pluginId baseDir (manifestText r) (scriptText r).

Definition loadPluginFromPath (path : string) : M (Plugin PluginManifest) :=
  let path := rtrimSlashes path in
  if endsWith ".js" (toLowerCase path)
  then
    pluginId ← lift (filename path);
    baseDir ← lift (dirname path);
    jsBundleString ← lift (fs_readFile path);
    loadPluginFromString pluginId baseDir jsBundleString
  else
    let distPath :=
      if negb (fs_exists (path ++ "/manifest.json")) then path ++ "/dist" else path in
    logInfo ("PluginService: Loading plugin from " ++ path);;
    scriptText ← lift (fs_readFile (distPath ++ "/index.js"));
    manifestText ← lift (fs_readFile (distPath ++ "/manifest.json"));
    name ← lift (filename path);
    let pluginId := makePluginId name in
    loadPlugin pluginId distPath manifestText scriptText.

Definition runPlugin (plugin : Plugin PluginManifest) : M unit :=
  registerPlugin plugin;;
  runnerRun plugin.

(** The paths the loop of [loadAndRunPlugins] iterates over: the array
    itself ([inr]), or the entries of the directory ([inl]). *)
Definition pluginPathsOf (pluginDirOrPaths : string + list string) : M (list string) :=
  match pluginDirOrPaths with
  | inr paths => mret paths
  | inl dir =>
      stats ← lift (fs_readDirStats dir);
      mret (List.map (fun stat => dir ++ "/" ++ stat_path stat)
              (List.filter
                 (fun stat => stat_isDirectory stat
                              || endsWith ".js" (toLowerCase (stat_path stat)))
                 stats))
  end.

(** One iteration of the [for (const pluginPath of pluginPaths)] loop. *)
Definition loadAndRunOne (pluginPath : string) : M unit :=
  if indexOf "_" pluginPath =? 0
  then logInfo ("PluginService: Plugin name starts with " ++ quoted "_"
                ++ " and has not been loaded: " ++ pluginPath)
  else tryCatch
         (plugin ← loadPluginFromPath pluginPath;
          runPlugin plugin)
         (fun error =>
            logError ("PluginService: Could not load plugin: " ++ pluginPath) error).

Fixpoint forEachPluginPath (pluginPaths : list string) : M unit :=
  match pluginPaths with
  | [] => mret tt
  | pluginPath :: rest => loadAndRunOne pluginPath;; forEachPluginPath rest
  end.

Definition loadAndRunPlugins (pluginDirOrPaths : string + list string) : M unit :=
  pluginPaths ← pluginPathsOf pluginDirOrPaths;
  forEachPluginPath pluginPaths.

(** The error-level entries of the log. *)
Definition errorsLogged (st : State) : list LogEntry :=
  List.filter (fun entry => match level entry with LevelError => true | _ => false end)
    (logged st).

(** [st'] keeps everything [st] holds: the host version, every registry
    entry, and what was sent to the runner. *)
Record extends (st st' : State) : Prop := mkExtends {
  extends_version : appVersion_ st' = appVersion_ st;
  extends_registry : plugins_ st ⊆ plugins_ st';
  extends_runner : runnerCalls st `prefix_of` runnerCalls st'
}.

(** What loading leaves alone: the registry, the calls to the runner,
    the host version and the errors logged. *)
Definition untouchedByLoad (st st' : State) : Prop :=
  plugins_ st' = plugins_ st
  /\ runnerCalls st' = runnerCalls st
  /\ appVersion_ st' = appVersion_ st
  /\ errorsLogged st' = errorsLogged st.

(** Every entry of the registry is stored under its own identifier. *)
Definition keyedById (st : State) : Prop :=
  forall (pluginId : string) (plugin : Plugin PluginManifest),
    plugins_ st !! pluginId = Some plugin -> Plugin.id plugin = pluginId.

End PluginService.

(** ** Lookup by identifier, and what a batch keeps true *)

Section Registry.

Context {PluginManifest : Type}.
Context `{!ManifestValidator PluginManifest, !Libraries, !PathUtils,
          !FsDriver, !BasePluginRunner PluginManifest,
          !PluginMembers PluginManifest}.

Local Abbreviation State := (ServiceState PluginManifest).
Local Abbreviation M := (Eff State).

Definition pluginById (id : string) : M (RegistryValue PluginManifest) :=
  registry ← gets plugins_;
  match registryRead registry id with
  | None => throw (OtherError ("Plugin not found: " ++ id))
  | Some value => mret value
  end.

(** The action [loadPlugin] dispatches for the identifier [pluginId]. *)
Definition pluginAdd (pluginId : string) : Action :=
  {| type := "PLUGIN_ADD";
     plugin := {| entry_id := pluginId; views := ∅; contentScripts := ∅ |} |}.

(** The store was told of an identifier exactly when the registry holds an
    enabled entity under it. *)
Definition storeAgrees (st : State) : Prop :=
  forall pluginId : string,
    pluginAdd pluginId ∈ dispatched st
    <-> exists plugin : Plugin PluginManifest,
          plugins_ st !! pluginId = Some plugin /\ Plugin.enabled plugin = true.

(** The registry holds the entities handed to the runner, and no
    identifier was handed to the runner twice. *)
Definition registryIsRun (st : State) : Prop :=
  (forall (pluginId : string) (plugin : Plugin PluginManifest),
     plugins_ st !! pluginId = Some plugin -> plugin ∈ runnerCalls st)
  /\ (forall plugin : Plugin PluginManifest,
        plugin ∈ runnerCalls st -> plugins_ st !! Plugin.id plugin = Some plugin)
  /\ NoDup (Plugin.id <$> runnerCalls st).

(** The entry of the log written when a candidate is skipped, and when
    its load or its run throws. *)
Definition skippedEntry (pluginPath : string) : LogEntry :=
  mkLog LevelInfo
    ("PluginService: Plugin name starts with " ++ quoted "_"
     ++ " and has not been loaded: " ++ pluginPath) None.

Definition failedEntry (pluginPath : string) (error : Exn) : LogEntry :=
  mkLog LevelError ("PluginService: Could not load plugin: " ++ pluginPath) (Some error).

End Registry.

(** A string without a line feed. *)
Fixpoint singleLine (s : string) : bool :=
  match s with
  | EmptyString => true
  | String c r => negb (Ascii.eqb c "010") && singleLine r
  end.

(** ** A small host

    Concrete collaborators on which the service can be run: dotted decimal
    versions, an ASCII slug, path-utils on slash-separated paths, a
    file-system table and a runner that always resolves. *)

Module Demo.

Record Manifest : Type := mkManifest { min_version : string }.

Definition validate (o : JSValue) : Exn + Manifest :=
  match o with
  | JObj props =>
      match lookupProp "app_min_version" props with
      | Some (JStr v) => inr (mkManifest v)
      | _ => inl (ManifestSchemaInvalid "app_min_version must be a string")
      end
  | _ => inl (ManifestSchemaInvalid "manifest must be an object")
  end.

#[export] Instance validator : ManifestValidator Manifest :=
  {| app_min_version := min_version; manifestFromObject := validate |}.

Definition emptyManifestText : string := "{}".
Definition manifest20Text : string :=
  "{" ++ quoted "app_min_version" ++ ":" ++ quoted "2.0" ++ "}".

(** [JSON.parse] on the two manifests used below; any other text is
    rejected. *)
Definition parseJson (text : string) : Exn + JSValue :=
  if String.eqb text emptyManifestText then inr (JObj [])
  else if String.eqb text manifest20Text
       then inr (JObj [("app_min_version", JStr "2.0")])
       else inl (InvalidManifestJson "Unexpected token in JSON").

Fixpoint parseDigits (acc : nat) (s : string) : option nat :=
  match s with
  | EmptyString => Some acc
  | String c r =>
      let n := nat_of_ascii c in
      if ((48 <=? n) && (n <=? 57))%nat
      then parseDigits (10 * acc + (n - 48)) r else None
  end.

Fixpoint compareParts (a b : list nat) : Z :=
  match a, b with
  | [], _ => if forallb (Nat.eqb 0) b then 0 else -1
  | x :: a', [] => if (x =? 0)%nat then compareParts a' [] else 1
  | x :: a', y :: b' =>
      if (x <? y)%nat then -1 else if (y <? x)%nat then 1 else compareParts a' b'
  end.

Definition compare (v1 v2 : string) : Exn + Z :=
  match mapM (parseDigits 0) (split "." v1), mapM (parseDigits 0) (split "." v2) with
  | Some a, Some b => inr (compareParts a b)
  | _, _ => inl (OtherError "Invalid argument not valid semver")
  end.

Definition isSlugChar (c : ascii) : bool :=
  let n := nat_of_ascii c in
  (((97 <=? n) && (n <=? 122)) || ((48 <=? n) && (n <=? 57))
   || (n =? 95) || (n =? 126))%nat.

Fixpoint slugChars (s : string) : string :=
  match s with
  | EmptyString => EmptyString
  | String c r =>
      let c' := toLowerCaseChar c in
      if isSlugChar c' then String c' (slugChars r)
      else if isWhiteSpace c || Ascii.eqb c "-"
           then match slugChars r with
                | String "-" _ as r' => r'
                | r' => String "-" r'
                end
           else slugChars r
  end.

Definition slug (s : string) : string := slugChars (trim s).

#[export] Instance libraries : Libraries :=
  {| JSON_parse := parseJson; compareVersions := compare; uslug := slug |}.

Definition isSlash (c : ascii) : bool := Ascii.eqb c "/" || Ascii.eqb c "\".

Fixpoint stripSlashes (s : string) : string :=
  match s with
  | EmptyString => EmptyString
  | String c r =>
      match stripSlashes r with
      | EmptyString => if isSlash c then EmptyString else String c EmptyString
      | r' => String c r'
      end
  end.

Definition basename (path : string) : string :=
  List.last (split "/" path) EmptyString.

Definition fileName (path : string) : Exn + string :=
  if String.eqb path EmptyString then inl (OtherError "Path is empty")
  else
    let output := basename path in
    if indexOf "." output <? 0 then inr output
    else inr (join "." (List.removelast (split "." output))).

Definition dirName (path : string) : Exn + string :=
  if String.eqb path EmptyString then inl (OtherError "Path is empty")
  else inr (join "/" (List.removelast (split "/" path))).

#[export] Instance pathUtils : PathUtils :=
  {| rtrimSlashes := stripSlashes; filename := fileName; dirname := dirName |}.

Definition nl : string := String "010" EmptyString.

(** A single-file plugin whose manifest block holds [{}]. *)
Definition bundleText : string :=
  join nl ["/* joplin-manifest:"; "{}"; "*/"; "joplin.plugins.register({});"].

Definition files : list (string * string) :=
  [ ("/plugins/MyPlugin.js", bundleText);
    ("/plugins/_off.js", bundleText);
    ("/plugins/broken.js", "joplin.plugins.register({});");
    ("/plugins/notes.js", bundleText);
    ("/extra/myplugin.js", bundleText);
    ("/plugins/Tool Box/manifest.json", manifest20Text);
    ("/plugins/Tool Box/index.js", "joplin.plugins.register({});");
    ("/plugins/tool-box/dist/manifest.json", emptyManifestText);
    ("/plugins/tool-box/dist/index.js", "joplin.plugins.register({});") ].

Fixpoint readTable (table : list (string * string)) (path : string) : option string :=
  match table with
  | [] => None
  | (p, content) :: rest => if String.eqb p path then Some content else readTable rest path
  end.

Definition readFile (path : string) : Exn + string :=
  match readTable files path with
  | Some content => inr content
  | None => inl (IOError ("ENOENT: no such file or directory, open '" ++ path ++ "'"))
  end.

Definition readDirStats (dir : string) : Exn + list Stat :=
  if String.eqb dir "/plugins"
  then inr [ mkStat "MyPlugin.js" false; mkStat "_off.js" false;
             mkStat "broken.js" false; mkStat "notes.js" false;
             mkStat "README.md" false;
             mkStat "Tool Box" true; mkStat "tool-box" true ]
  else inl (IOError ("ENOENT: no such file or directory, scandir '" ++ dir ++ "'")).

#[export] Instance fsDriver : FsDriver :=
  {| fs_exists := fun path => bool_decide (is_Some (readTable files path));
     fs_readFile := readFile;
     fs_readDirStats := readDirStats |}.

#[export] Instance runner : BasePluginRunner Manifest :=
  {| runner_run := fun _ => None |}.

(** An entity used as prototype gives what [Object.prototype] gives, its
    fields, and its [enabled] flag. *)
#[export] Instance pluginMembers : PluginMembers Manifest :=
  {| inheritedThrough := fun plugin name =>
       inheritedFromObject name
       || existsb (String.eqb name) ["id"; "baseDir"; "manifest"; "scriptText"]
       || (String.eqb name "enabled" && Plugin.enabled plugin) |}.

End Demo.

(** A runner that throws on the plugin [notes] and resolves on the
    others, to run the small host with a failing plugin. *)
Definition rejectingRunner : BasePluginRunner Demo.Manifest :=
  {| runner_run := fun plugin =>
       if String.eqb (Plugin.id plugin) "notes"
       then Some (OtherError "notes: the plugin script threw")
       else None |}.

(** * Properties *)

(** ** The manifest block extractor *)

Section Extractor.

Lemma scanLines_started_no_opening acc lines :
  existsb isOpeningLine lines = false ->
  scanLines StateStarted acc lines = acc.
Proof.
  induction lines as [|l lines IH]; cbn [existsb scanLines]; [done|].
  intros [Hl Hrest]%orb_false_iff. unfold isOpeningLine in Hl.
  rewrite Hl. auto.
Qed.

Lemma scanLines_started_opening acc pre opening rest :
  existsb isOpeningLine pre = false ->
  isOpeningLine opening = true ->
  scanLines StateStarted acc (pre ++ opening :: rest)%list
  = scanLines StateInManifest acc rest.
Proof.
  intros Hpre Hopen. induction pre as [|l pre IH]; cbn [app existsb scanLines] in *.
  - unfold isOpeningLine in Hopen. by rewrite Hopen.
  - apply orb_false_iff in Hpre as [Hl Hpre]. unfold isOpeningLine in Hl.
    rewrite Hl. auto.
Qed.

Lemma scanLines_in_manifest_inner inner : forall acc rest,
  existsb isClosingLine inner = false ->
  scanLines StateInManifest acc (inner ++ rest)%list
  = scanLines StateInManifest (acc ++ List.map trim inner)%list rest.
Proof.
  induction inner as [|l inner IH]; intros acc rest; cbn [app existsb List.map scanLines].
  - by rewrite app_nil_r.
  - intros [Hl Hinner]%orb_false_iff. unfold isClosingLine in Hl.
    rewrite Hl, IH by done. by rewrite <- app_assoc.
Qed.

Lemma scanLines_in_manifest_closing acc closing post :
  isClosingLine closing = true ->
  scanLines StateInManifest acc (closing :: post) = acc.
Proof. unfold isClosingLine. cbn [scanLines]. by intros ->. Qed.

Lemma parsePluginJsBundle_of_scan bundle found :
  scanLines StateStarted [] (split "010" bundle) = found ->
  parsePluginJsBundle bundle
  = match found with
    | [] => inl ManifestNotFound
    | _ :: _ => inr (mkBundle bundle (join (String "010" EmptyString) found))
    end.
Proof. unfold parsePluginJsBundle. intros ->. by destruct found. Qed.

(** C7. A bundle whose lines are: lines without an opening marker, the
    opening marker line, one or more inner lines none of which starts
    with the closing marker, a line that starts with the closing marker,
    and anything after it, is extracted successfully. The manifest text
    is the trimmed inner lines joined with newlines and the script text
    is the whole bundle, unchanged. *)
Theorem parsePluginJsBundle_well_formed
    (bundle : string) (pre : list string) (opening : string)
    (inner : list string) (closing : string) (post : list string) :
  split "010" bundle = (pre ++ opening :: inner ++ closing :: post)%list ->
  existsb isOpeningLine pre = false ->
  isOpeningLine opening = true ->
  inner <> [] ->
  existsb isClosingLine inner = false ->
  isClosingLine closing = true ->
  parsePluginJsBundle bundle
  = inr {| scriptText := bundle;
           manifestText := join (String "010" EmptyString) (List.map trim inner) |}.
Proof.
  intros Hlines Hpre Hopen Hne Hinner Hclose.
  rewrite (parsePluginJsBundle_of_scan bundle (List.map trim inner)).
  - destruct inner; [done|reflexivity].
  - rewrite Hlines, scanLines_started_opening by done.
    rewrite scanLines_in_manifest_inner by done.
    by rewrite scanLines_in_manifest_closing.
Qed.

(** C5, as the code has it. A bundle without an opening marker line is
    rejected with ManifestNotFound. A bundle with an opening marker line
    and no closing marker line after it is rejected only when the
    opening marker is its last line; otherwise every trimmed line after
    the opening marker is returned as manifest text. *)
Theorem parsePluginJsBundle_missing_marker (bundle : string) :
  (lacksOpeningMarker bundle -> parsePluginJsBundle bundle = inl ManifestNotFound)
  /\ (forall pre opening rest,
        split "010" bundle = (pre ++ opening :: rest)%list ->
        existsb isOpeningLine pre = false ->
        isOpeningLine opening = true ->
        existsb isClosingLine rest = false ->
        parsePluginJsBundle bundle
        = match rest with
          | [] => inl ManifestNotFound
          | _ :: _ =>
              inr {| scriptText := bundle;
                     manifestText :=
                       join (String "010" EmptyString) (List.map trim rest) |}
          end).
Proof.
  split.
  - intros Hno. unfold lacksOpeningMarker in Hno.
    by rewrite (parsePluginJsBundle_of_scan bundle []
                  (scanLines_started_no_opening [] _ Hno)).
  - intros pre opening rest Hlines Hpre Hopen Hrest.
    rewrite (parsePluginJsBundle_of_scan bundle (List.map trim rest)).
    + by destruct rest.
    + rewrite Hlines, scanLines_started_opening by done.
      rewrite <- (app_nil_r rest) at 1.
      by rewrite scanLines_in_manifest_inner.
Qed.

End Extractor.

(** C5 fails as stated: this bundle has no closing marker line, and its
    extraction succeeds with manifest text [{}]. *)
Lemma parsePluginJsBundle_unclosed_block_accepted :
  let bundle := join Demo.nl ["/* joplin-manifest:"; "{}"] in
  lacksClosingMarker bundle
  /\ parsePluginJsBundle bundle = inr {| scriptText := bundle; manifestText := "{}" |}.
Proof. split; reflexivity. Qed.

Lemma parsePluginJsBundle_missing_marker_witness :
  parsePluginJsBundle "joplin.plugins.register({});" = inl ManifestNotFound
  /\ parsePluginJsBundle (join Demo.nl ["/* joplin-manifest:"; "{"; "}"])
     = inr {| scriptText := join Demo.nl ["/* joplin-manifest:"; "{"; "}"];
              manifestText := join Demo.nl ["{"; "}"] |}.
Proof.
  split.
  - apply (proj1 (parsePluginJsBundle_missing_marker _)). reflexivity.
  - apply (proj2 (parsePluginJsBundle_missing_marker _)
             [] "/* joplin-manifest:" ["{"; "}"]); reflexivity.
Defined.

Lemma parsePluginJsBundle_well_formed_witness :
  parsePluginJsBundle Demo.bundleText
  = inr {| scriptText := Demo.bundleText; manifestText := "{}" |}.
Proof.
  apply (parsePluginJsBundle_well_formed Demo.bundleText
           [] "/* joplin-manifest:" ["{}"] "*/" ["joplin.plugins.register({});"]);
    try reflexivity.
  discriminate.
Defined.

(** ** The plugin loader *)

Ltac eff_unfold :=
  cbv [mbind mret Eff_bind Eff_ret lift gets modify throw tryCatch
       dispatch log logInfo logError newPlugin registerPlugin runnerRun].

Section Loader.

Context {PluginManifest : Type}.
Context `{!ManifestValidator PluginManifest, !Libraries, !PathUtils,
          !FsDriver, !BasePluginRunner PluginManifest,
          !PluginMembers PluginManifest}.

Local Abbreviation State := (ServiceState PluginManifest).

Implicit Types (st : State) (plugin : Plugin PluginManifest).

Lemma untouchedByLoad_refl st : untouchedByLoad st st.
Proof. by repeat split. Qed.

Lemma untouchedByLoad_trans st1 st2 st3 :
  untouchedByLoad st1 st2 -> untouchedByLoad st2 st3 -> untouchedByLoad st1 st3.
Proof.
  intros (?&?&?&?) (?&?&?&?). repeat split; etrans; eauto.
Qed.

Lemma registryRead_own (registry : gmap string (Plugin PluginManifest)) name plugin :
  registry !! name = Some plugin ->
  registryRead registry name = Some (StoredEntity plugin).
Proof. unfold registryRead. by intros ->. Qed.

Lemma registryRead_None (registry : gmap string (Plugin PluginManifest)) name :
  registryRead registry name = None -> registry !! name = None.
Proof. unfold registryRead. by destruct (registry !! name). Qed.

(** What [loadPlugin] leaves alone, whatever it returns or throws. *)
Lemma loadPlugin_frame pluginId baseDir manifestText scriptText st :
  untouchedByLoad st (loadPlugin pluginId baseDir manifestText scriptText st).2.
Proof.
  unfold untouchedByLoad, loadPlugin. eff_unfold.
  destruct (JSON_parse manifestText) as [e|o]; [done|].
  destruct (defaultAppMinVersion o) as [e|[manifestObj notice]]; [done|].
  destruct (manifestFromObject manifestObj) as [e|manifest]; [done|].
  cbn. case_bool_decide; [done|]. cbn.
  destruct (compareVersions _ _) as [e|c]; [done|].
  destruct (c <? 0); cbn; repeat split; try done.
  unfold errorsLogged. cbn. rewrite List.filter_app. cbn. apply app_nil_r.
Qed.

(** What a successful [loadPlugin] guarantees about the entity. *)
Lemma loadPlugin_returns pluginId baseDir manifestText scriptText st plugin st' :
  loadPlugin pluginId baseDir manifestText scriptText st = (inr plugin, st') ->
  Plugin.id plugin = pluginId /\ plugins_ st !! pluginId = None.
Proof.
  unfold loadPlugin. eff_unfold.
  destruct (JSON_parse manifestText) as [e|o]; [done|].
  destruct (defaultAppMinVersion o) as [e|[manifestObj notice]]; [done|].
  destruct (manifestFromObject manifestObj) as [e|manifest]; [done|].
  cbn. case_bool_decide as Hdup; [done|]. cbn.
  apply eq_None_not_Some, registryRead_None in Hdup.
  destruct (compareVersions _ _) as [e|c]; [done|].
  destruct (c <? 0), notice; cbn; intros [= <- <-]; done.
Qed.

(** The result of a load that passes parsing, validation and the
    duplicate check, and whose version comparison returns [c]. *)
Lemma loadPlugin_reaches_gate pluginId baseDir manifestText scriptText st
    o manifestObj notice manifest c :
  JSON_parse manifestText = inr o ->
  defaultAppMinVersion o = inr (manifestObj, notice) ->
  manifestFromObject manifestObj = inr manifest ->
  registryRead (plugins_ st) pluginId = None ->
  compareVersions (appVersion_ st) (app_min_version manifest) = inr c ->
  exists plugin st',
    loadPlugin pluginId baseDir manifestText scriptText st = (inr plugin, st')
    /\ Plugin.id plugin = pluginId
    /\ Plugin.manifest plugin = manifest
    /\ Plugin.enabled plugin = negb (c <? 0)
    /\ Plugin.notices plugin
       = (if notice then [("1.5", appMinVersionNotice)] else [])
    /\ dispatched st'
       = (if c <? 0 then dispatched st
          else dispatched st ++ [mkAction "PLUGIN_ADD" (mkEntry pluginId ∅ ∅)])%list
    /\ constructedIds st' = (constructedIds st ++ [pluginId])%list.
Proof.
  intros Hparse Hdefault Hvalid Hfresh Hcmp.
  unfold loadPlugin. eff_unfold. rewrite Hparse, Hdefault, Hvalid.
  cbn. rewrite Hfresh. cbn. rewrite Hcmp.
  destruct (c <? 0), notice; cbn; eexists _, _; repeat split; reflexivity.
Qed.

(** C1. A load that reaches the version gate returns an entity: the
    manifest parses and validates, and [this.plugins_[pluginId]] is
    falsy, what the registry object inherits included. When the host
    version compares below the manifest's [app_min_version], the entity
    has [enabled = false] and nothing is dispatched to the store;
    otherwise exactly one action is dispatched: PLUGIN_ADD with the
    identifier of the extension and empty [views] and [contentScripts]. *)
Theorem loadPlugin_version_gate
    (pluginId baseDir manifestText scriptText : string) (st : State)
    (o manifestObj : JSValue) (notice : bool) (manifest : PluginManifest) (c : Z) :
  JSON_parse manifestText = inr o ->
  defaultAppMinVersion o = inr (manifestObj, notice) ->
  manifestFromObject manifestObj = inr manifest ->
  registryRead (plugins_ st) pluginId = None ->
  compareVersions (appVersion_ st) (app_min_version manifest) = inr c ->
  exists plugin st',
    loadPlugin pluginId baseDir manifestText scriptText st = (inr plugin, st')
    /\ (c < 0 -> Plugin.enabled plugin = false /\ dispatched st' = dispatched st)
    /\ (0 <= c ->
        Plugin.enabled plugin = true
        /\ dispatched st'
           = (dispatched st
              ++ [{| type := "PLUGIN_ADD";
                     plugin := {| entry_id := Plugin.id plugin;
                                  views := ∅; contentScripts := ∅ |} |}])%list).
Proof.
  intros Hparse Hdefault Hvalid Hfresh Hcmp.
  destruct (loadPlugin_reaches_gate pluginId baseDir manifestText scriptText st
              _ _ _ _ _ Hparse Hdefault Hvalid Hfresh Hcmp)
    as (plugin & st' & Hload & Hid & _ & Hen & _ & Hdisp & _).
  exists plugin, st'. rewrite Hen, Hdisp, Hid. split; [done|].
  split; intros Hc.
  - apply Z.ltb_lt in Hc. by rewrite Hc.
  - apply Z.ltb_ge in Hc. by rewrite Hc.
Qed.

Lemma lookupProp_assignProp k v props :
  lookupProp k (assignProp k v props) = Some v.
Proof.
  induction props as [|[k' v'] props IH]; cbn.
  - by rewrite String.eqb_refl.
  - destruct (String.eqb k k') eqn:Hk; cbn; by rewrite ?String.eqb_refl, ?Hk.
Qed.

(** C8. For a manifest object without [app_min_version], the object
    handed to the validator has [app_min_version] equal to "1.4"; when
    the load goes through (the validator accepts and
    [this.plugins_[pluginId]] is falsy, what the registry object inherits
    included), the returned entity carries the deprecation notice tagged
    "1.5", and its enabled flag is decided by the version comparison
    alone. *)
Theorem loadPlugin_default_app_min_version
    (pluginId baseDir manifestText scriptText : string) (st : State)
    (props : list (string * JSValue)) :
  JSON_parse manifestText = inr (JObj props) ->
  lookupProp "app_min_version" props = None ->
  let manifestObj := JObj (assignProp "app_min_version" (JStr "1.4") props) in
  defaultAppMinVersion (JObj props) = inr (manifestObj, true)
  /\ getProp manifestObj "app_min_version" = inr (Some (JStr "1.4"))
  /\ (forall e, manifestFromObject manifestObj = inl e ->
        loadPlugin pluginId baseDir manifestText scriptText st = (inl e, st))
  /\ (forall manifest c,
        manifestFromObject manifestObj = inr manifest ->
        registryRead (plugins_ st) pluginId = None ->
        compareVersions (appVersion_ st) (app_min_version manifest) = inr c ->
        exists plugin st',
          loadPlugin pluginId baseDir manifestText scriptText st = (inr plugin, st')
          /\ Plugin.manifest plugin = manifest
          /\ Plugin.notices plugin = [("1.5", appMinVersionNotice)]
          /\ Plugin.enabled plugin = negb (c <? 0)).
Proof.
  intros Hparse Hmissing manifestObj.
  assert (Hdefault : defaultAppMinVersion (JObj props) = inr (manifestObj, true)).
  { unfold defaultAppMinVersion. cbn. by rewrite Hmissing. }
  split; [done|]. split; [cbn; by rewrite lookupProp_assignProp|]. split.
  - intros e He. unfold loadPlugin. eff_unfold. by rewrite Hparse, Hdefault, He.
  - intros manifest c Hvalid Hfresh Hcmp.
    destruct (loadPlugin_reaches_gate pluginId baseDir manifestText scriptText st
                _ _ _ _ _ Hparse Hdefault Hvalid Hfresh Hcmp)
      as (plugin & st' & Hload & _ & Hm & Hen & Hnotice & _).
    by exists plugin, st'.
Qed.

(** C10. [loadPlugin] never changes the registry, whether it returns or
    throws; the entity it returns is not in the registry. *)
Theorem loadPlugin_registry_unchanged
    (pluginId baseDir manifestText scriptText : string) (st : State) :
  plugins_ (loadPlugin pluginId baseDir manifestText scriptText st).2 = plugins_ st
  /\ (forall plugin st',
        loadPlugin pluginId baseDir manifestText scriptText st = (inr plugin, st') ->
        plugins_ st' !! Plugin.id plugin = None).
Proof.
  split; [apply loadPlugin_frame|].
  intros plugin st' Hload.
  destruct (loadPlugin_returns _ _ _ _ _ _ _ Hload) as [-> Hfresh].
  pose proof (loadPlugin_frame pluginId baseDir manifestText scriptText st) as Hframe.
  rewrite Hload in Hframe. destruct Hframe as [Hreg _]. cbn in Hreg. by rewrite Hreg.
Qed.

Lemma runPlugin_eq plugin st :
  runPlugin plugin st
  = (match runner_run plugin with Some e => inl e | None => inr tt end,
     mkState (appVersion_ st) (<[Plugin.id plugin := plugin]> (plugins_ st))
       (dispatched st) (logged st) (constructedIds st)
       (runnerCalls st ++ [plugin])%list).
Proof. unfold runPlugin. eff_unfold. by destruct (runner_run plugin). Qed.

End Loader.

(** ** The path resolver *)

Section Resolver.

Context {PluginManifest : Type}.
Context `{!ManifestValidator PluginManifest, !Libraries, !PathUtils,
          !FsDriver, !BasePluginRunner PluginManifest,
          !PluginMembers PluginManifest}.

Local Abbreviation State := (ServiceState PluginManifest).
Implicit Types (st : State) (plugin : Plugin PluginManifest).

Lemma loadPluginFromString_frame pluginId baseDir jsBundleString st :
  untouchedByLoad st (loadPluginFromString pluginId baseDir jsBundleString st).2.
Proof.
  unfold loadPluginFromString. eff_unfold.
  destruct (parsePluginJsBundle jsBundleString) as [e|r].
  - apply untouchedByLoad_refl.
  - apply loadPlugin_frame.
Qed.

Lemma loadPluginFromString_returns pluginId baseDir jsBundleString st plugin st' :
  loadPluginFromString pluginId baseDir jsBundleString st = (inr plugin, st') ->
  Plugin.id plugin = pluginId /\ plugins_ st !! pluginId = None.
Proof.
  unfold loadPluginFromString. eff_unfold.
  destruct (parsePluginJsBundle jsBundleString) as [e|r]; [done|].
  apply loadPlugin_returns.
Qed.

(** A path that ends in [.js]: the identifier handed to the loader is
    [filename(path)] as it stands, the base directory is
    [dirname(path)], and the content of the file is the bundle. *)
Lemma loadPluginFromPath_script_file path st name dir content :
  endsWith ".js" (toLowerCase (rtrimSlashes path)) = true ->
  filename (rtrimSlashes path) = inr name ->
  dirname (rtrimSlashes path) = inr dir ->
  fs_readFile (rtrimSlashes path) = inr content ->
  loadPluginFromPath path st = loadPluginFromString name dir content st.
Proof.
  intros Hjs Hname Hdir Hread. unfold loadPluginFromPath. eff_unfold.
  by rewrite Hjs, Hname, Hdir, Hread.
Qed.

Lemma loadPluginFromPath_script_file_id path st name dir content plugin st' :
  endsWith ".js" (toLowerCase (rtrimSlashes path)) = true ->
  filename (rtrimSlashes path) = inr name ->
  dirname (rtrimSlashes path) = inr dir ->
  fs_readFile (rtrimSlashes path) = inr content ->
  loadPluginFromPath path st = (inr plugin, st') ->
  Plugin.id plugin = name.
Proof.
  intros Hjs Hname Hdir Hread.
  rewrite (loadPluginFromPath_script_file path st name dir content) by done.
  by intros [? _]%loadPluginFromString_returns.
Qed.

Lemma loadPluginFromPath_frame path st :
  untouchedByLoad st (loadPluginFromPath path st).2.
Proof.
  unfold loadPluginFromPath.
  destruct (endsWith ".js" (toLowerCase (rtrimSlashes path))).
  - eff_unfold.
    destruct (filename _) as [e|name]; [apply untouchedByLoad_refl|].
    destruct (dirname _) as [e|dir]; [apply untouchedByLoad_refl|].
    destruct (fs_readFile _) as [e|content]; [apply untouchedByLoad_refl|].
    apply loadPluginFromString_frame.
  - eff_unfold.
    set (st1 := mkState _ _ _ _ _ _).
    assert (Hlog : untouchedByLoad st st1).
    { subst st1. repeat split. unfold errorsLogged. cbn.
      rewrite List.filter_app. cbn. apply app_nil_r. }
    destruct (fs_readFile _) as [e|scriptText]; [done|].
    destruct (fs_readFile _) as [e|manifestText]; [done|].
    destruct (filename _) as [e|name]; [done|].
    eapply untouchedByLoad_trans; [exact Hlog|apply loadPlugin_frame].
Qed.

Lemma loadPluginFromPath_returns path st plugin st' :
  loadPluginFromPath path st = (inr plugin, st') ->
  plugins_ st !! Plugin.id plugin = None.
Proof.
  unfold loadPluginFromPath.
  destruct (endsWith ".js" (toLowerCase (rtrimSlashes path))).
  - eff_unfold.
    destruct (filename _) as [e|name]; [done|].
    destruct (dirname _) as [e|dir]; [done|].
    destruct (fs_readFile _) as [e|content]; [done|].
    intros [-> Hfresh]%loadPluginFromString_returns. done.
  - eff_unfold.
    destruct (fs_readFile _) as [e|scriptText]; [done|].
    destruct (fs_readFile _) as [e|manifestText]; [done|].
    destruct (filename _) as [e|name]; [done|].
    intros [-> Hfresh]%loadPlugin_returns. done.
Qed.

End Resolver.

(** ** The batch orchestrator *)

Section Batch.

Context {PluginManifest : Type}.
Context `{!ManifestValidator PluginManifest, !Libraries, !PathUtils,
          !FsDriver, !BasePluginRunner PluginManifest,
          !PluginMembers PluginManifest}.

Local Abbreviation State := (ServiceState PluginManifest).
Implicit Types (st : State) (plugin : Plugin PluginManifest).

Lemma extends_refl st : extends st st.
Proof. by split. Qed.

Lemma extends_trans st1 st2 st3 : extends st1 st2 -> extends st2 st3 -> extends st1 st3.
Proof. intros [] []. split; etrans; eauto. Qed.

Lemma untouchedByLoad_extends st st' : untouchedByLoad st st' -> extends st st'.
Proof. intros (Hreg & Hrun & Hver & _). split; [done| by rewrite Hreg | by rewrite Hrun]. Qed.

Lemma log_extends entry st : extends st (log entry st).2.
Proof. by split. Qed.

Lemma loadAndRunOne_skipped pluginPath st :
  indexOf "_" pluginPath = 0 ->
  loadAndRunOne pluginPath st
  = logInfo ("PluginService: Plugin name starts with " ++ quoted "_"
             ++ " and has not been loaded: " ++ pluginPath) st.
Proof. unfold loadAndRunOne. by intros ->. Qed.

(** An iteration on a path that is not skipped: load, then run, and log
    what either of them throws. *)
Lemma loadAndRunOne_attempted pluginPath st :
  indexOf "_" pluginPath <> 0 ->
  loadAndRunOne pluginPath st
  = match loadPluginFromPath pluginPath st with
    | (inl error, st') =>
        logError ("PluginService: Could not load plugin: " ++ pluginPath) error st'
    | (inr plugin, st') =>
        match runPlugin plugin st' with
        | (inl error, st'') =>
            logError ("PluginService: Could not load plugin: " ++ pluginPath) error st''
        | (inr tt, st'') => (inr tt, st'')
        end
    end.
Proof.
  intros Hne. apply Z.eqb_neq in Hne. unfold loadAndRunOne. rewrite Hne.
  cbv [tryCatch mbind Eff_bind].
  destruct (loadPluginFromPath pluginPath st) as [[error|plugin] st']; [done|].
  by destruct (runPlugin plugin st') as [[error|[]] st''].
Qed.

Lemma loadAndRunOne_never_throws pluginPath st :
  (loadAndRunOne pluginPath st).1 = inr tt.
Proof.
  destruct (decide (indexOf "_" pluginPath = 0)) as [Hskip|Hne].
  - by rewrite loadAndRunOne_skipped.
  - rewrite loadAndRunOne_attempted by done.
    destruct (loadPluginFromPath pluginPath st) as [[error|plugin] st']; [done|].
    by destruct (runPlugin plugin st') as [[error|[]] st''].
Qed.

Lemma runPlugin_extends plugin st :
  plugins_ st !! Plugin.id plugin = None -> extends st (runPlugin plugin st).2.
Proof.
  intros Hfresh. rewrite runPlugin_eq. split; cbn; [done| |].
  - by apply insert_subseteq.
  - by apply prefix_app_r.
Qed.

Lemma loadAndRunOne_extends pluginPath st : extends st (loadAndRunOne pluginPath st).2.
Proof.
  destruct (decide (indexOf "_" pluginPath = 0)) as [Hskip|Hne].
  - rewrite loadAndRunOne_skipped by done. apply log_extends.
  - rewrite loadAndRunOne_attempted by done.
    pose proof (loadPluginFromPath_frame pluginPath st) as Hframe.
    pose proof (loadPluginFromPath_returns pluginPath st) as Hret.
    destruct (loadPluginFromPath pluginPath st) as [[error|plugin] st']; cbn in Hframe.
    + eapply extends_trans; [by apply untouchedByLoad_extends|apply log_extends].
    + specialize (Hret plugin st' eq_refl).
      assert (Hfresh : plugins_ st' !! Plugin.id plugin = None).
      { destruct Hframe as [-> _]. done. }
      eapply extends_trans; [by apply untouchedByLoad_extends|].
      pose proof (runPlugin_extends plugin st' Hfresh) as Hrun.
      destruct (runPlugin plugin st') as [[error|[]] st'']; cbn in Hrun; [|done].
      eapply extends_trans; [exact Hrun|apply log_extends].
Qed.

Lemma forEachPluginPath_cons pluginPath rest st :
  forEachPluginPath (pluginPath :: rest) st
  = forEachPluginPath rest (loadAndRunOne pluginPath st).2.
Proof.
  cbn [forEachPluginPath]. cbv [mbind Eff_bind].
  pose proof (loadAndRunOne_never_throws pluginPath st) as Hok.
  by destruct (loadAndRunOne pluginPath st) as [[e|[]] st'].
Qed.

Lemma forEachPluginPath_never_throws pluginPaths : forall st,
  (forEachPluginPath pluginPaths st).1 = inr tt.
Proof.
  induction pluginPaths as [|pluginPath rest IH]; intros st; [done|].
  by rewrite forEachPluginPath_cons.
Qed.

Lemma forEachPluginPath_app before after : forall st,
  forEachPluginPath (before ++ after) st
  = forEachPluginPath after (forEachPluginPath before st).2.
Proof.
  induction before as [|pluginPath rest IH]; intros st; [done|].
  cbn [app]. by rewrite !forEachPluginPath_cons.
Qed.

Lemma forEachPluginPath_extends pluginPaths : forall st,
  extends st (forEachPluginPath pluginPaths st).2.
Proof.
  induction pluginPaths as [|pluginPath rest IH]; intros st; [apply extends_refl|].
  rewrite forEachPluginPath_cons.
  eapply extends_trans; [apply loadAndRunOne_extends|apply IH].
Qed.

Lemma loadAndRunPlugins_paths pluginPaths st :
  loadAndRunPlugins (inr pluginPaths) st = forEachPluginPath pluginPaths st.
Proof. reflexivity. Qed.

Lemma loadAndRunPlugins_extends pluginDirOrPaths st :
  extends st (loadAndRunPlugins pluginDirOrPaths st).2.
Proof.
  destruct pluginDirOrPaths as [dir|pluginPaths].
  - unfold loadAndRunPlugins, pluginPathsOf. eff_unfold.
    destruct (fs_readDirStats dir) as [e|stats]; [apply extends_refl|].
    apply forEachPluginPath_extends.
  - apply forEachPluginPath_extends.
Qed.

(** After an iteration whose load succeeds, the entity is in the registry
    and has been handed to the runner. *)
Lemma loadAndRunOne_loaded pluginPath st plugin st' :
  indexOf "_" pluginPath <> 0 ->
  loadPluginFromPath pluginPath st = (inr plugin, st') ->
  plugins_ (loadAndRunOne pluginPath st).2 !! Plugin.id plugin = Some plugin
  /\ plugin ∈ runnerCalls (loadAndRunOne pluginPath st).2.
Proof.
  intros Hne Hload. rewrite loadAndRunOne_attempted, Hload, runPlugin_eq by done.
  destruct (runner_run plugin); cbn; rewrite lookup_insert_eq;
    (split; [done|]); apply elem_of_app; right; by apply list_elem_of_singleton.
Qed.

(** An iteration leaves the registry as it is or adds one entry under an
    identifier that was free. *)
Lemma loadAndRunOne_registry pluginPath st :
  plugins_ (loadAndRunOne pluginPath st).2 = plugins_ st
  \/ exists plugin,
       plugins_ st !! Plugin.id plugin = None
       /\ plugins_ (loadAndRunOne pluginPath st).2
          = <[Plugin.id plugin := plugin]> (plugins_ st).
Proof.
  destruct (decide (indexOf "_" pluginPath = 0)) as [Hskip|Hne].
  - left. by rewrite loadAndRunOne_skipped.
  - rewrite loadAndRunOne_attempted by done.
    pose proof (loadPluginFromPath_frame pluginPath st) as (Hreg & _).
    pose proof (loadPluginFromPath_returns pluginPath st) as Hret.
    destruct (loadPluginFromPath pluginPath st) as [[error|plugin] st']; cbn in Hreg.
    + by left.
    + right. exists plugin. split; [by eapply Hret|].
      rewrite runPlugin_eq. destruct (runner_run plugin); cbn; by rewrite Hreg.
Qed.

Lemma loadAndRunOne_keyedById pluginPath st :
  keyedById st -> keyedById (loadAndRunOne pluginPath st).2.
Proof.
  intros Hkeyed.
  destruct (loadAndRunOne_registry pluginPath st) as [Heq|(plugin & _ & Heq)];
    unfold keyedById; rewrite Heq; [done|].
  intros pluginId entry. destruct (decide (Plugin.id plugin = pluginId)) as [<-|Hne].
  - rewrite lookup_insert_eq. by intros [= <-].
  - rewrite lookup_insert_ne by done. apply Hkeyed.
Qed.

Lemma forEachPluginPath_keyedById pluginPaths : forall st,
  keyedById st -> keyedById (forEachPluginPath pluginPaths st).2.
Proof.
  induction pluginPaths as [|pluginPath rest IH]; intros st Hkeyed; [done|].
  rewrite forEachPluginPath_cons. by apply IH, loadAndRunOne_keyedById.
Qed.

(** C2. In a list of candidates where one, not skipped, fails to load:
    the batch does not throw; the iteration of that candidate adds
    exactly one error to the log, with the path of the candidate and the
    error thrown, registers nothing and runs nothing; the candidates
    after it are processed; and every candidate of the list that is not
    skipped and loads is in the registry and was handed to the runner
    when the batch ends. *)
Theorem loadAndRunPlugins_isolates_failure
    (before : list string) (pluginPath : string) (after : list string)
    (st : State) (error : Exn) (st' : State) :
  let pluginPaths := (before ++ pluginPath :: after)%list in
  let st1 := (loadAndRunPlugins (inr before) st).2 in
  indexOf "_" pluginPath <> 0 ->
  loadPluginFromPath pluginPath st1 = (inl error, st') ->
  let st2 := (loadAndRunOne pluginPath st1).2 in
  let final := loadAndRunPlugins (inr pluginPaths) st in
  final.1 = inr tt
  /\ errorsLogged st2
     = (errorsLogged st1
        ++ [{| level := LevelError;
               message := "PluginService: Could not load plugin: " ++ pluginPath;
               thrown := Some error |}])%list
  /\ plugins_ st2 = plugins_ st1
  /\ runnerCalls st2 = runnerCalls st1
  /\ final.2 = (loadAndRunPlugins (inr after) st2).2
  /\ (forall before' candidate after' plugin st'',
        pluginPaths = (before' ++ candidate :: after')%list ->
        indexOf "_" candidate <> 0 ->
        loadPluginFromPath candidate (loadAndRunPlugins (inr before') st).2
        = (inr plugin, st'') ->
        plugins_ final.2 !! Plugin.id plugin = Some plugin
        /\ plugin ∈ runnerCalls final.2).
Proof.
  intros pluginPaths st1 Hne Hload st2 final.
  assert (Hst2 : st2
                 = (logError ("PluginService: Could not load plugin: " ++ pluginPath)
                      error st').2).
  { subst st2. by rewrite loadAndRunOne_attempted, Hload. }
  pose proof (loadPluginFromPath_frame pluginPath st1) as Hframe.
  rewrite Hload in Hframe. destruct Hframe as (Hreg & Hrun & _ & Herr).
  cbn in Hreg, Hrun, Herr.
  split; [apply forEachPluginPath_never_throws|].
  split.
  { rewrite Hst2, <- Herr. unfold errorsLogged. cbn. by rewrite List.filter_app. }
  split; [by rewrite Hst2|]. split; [by rewrite Hst2|].
  split.
  { subst final pluginPaths st2 st1. rewrite !loadAndRunPlugins_paths.
    by rewrite forEachPluginPath_app, forEachPluginPath_cons. }
  intros before' candidate after' plugin st'' Hsplit Hne' Hload'.
  subst final. rewrite Hsplit. rewrite loadAndRunPlugins_paths in Hload' |- *.
  rewrite forEachPluginPath_app, forEachPluginPath_cons.
  destruct (loadAndRunOne_loaded candidate _ plugin st'' Hne' Hload') as [Hin Hran].
  destruct (forEachPluginPath_extends after' (loadAndRunOne candidate
              (forEachPluginPath before' st).2).2) as [_ Hsub Hpre].
  split.
  - by eapply map_subseteq_spec.
  - by eapply elem_of_prefix.
Qed.

(** C9, as the code has it. A batch never overwrites: every entry of
    the registry is still there, unchanged, when [loadAndRunPlugins]
    ends, and every entry stays stored under its own identifier.
    [runPlugin] itself stores the entity under its identifier without
    looking at what is there. *)
Theorem loadAndRunPlugins_never_overwrites
    (pluginDirOrPaths : string + list string) (st : State) :
  let st' := (loadAndRunPlugins pluginDirOrPaths st).2 in
  (forall pluginId plugin,
     plugins_ st !! pluginId = Some plugin -> plugins_ st' !! pluginId = Some plugin)
  /\ (keyedById st -> keyedById st')
  /\ (forall plugin st0,
        plugins_ (runPlugin plugin st0).2
        = <[Plugin.id plugin := plugin]> (plugins_ st0)).
Proof.
  split; [|split].
  - apply map_subseteq_spec, loadAndRunPlugins_extends.
  - destruct pluginDirOrPaths as [dir|pluginPaths].
    + unfold loadAndRunPlugins, pluginPathsOf. eff_unfold.
      destruct (fs_readDirStats dir) as [e|stats]; [done|].
      apply forEachPluginPath_keyedById.
    + apply forEachPluginPath_keyedById.
  - intros plugin st0. by rewrite runPlugin_eq.
Qed.

End Batch.

(** * Further properties *)

(** ** Strings and the extractor *)

Section Strings.

Lemma substr_length n : forall s, (String.length (substr 0 n s) <= n)%nat.
Proof.
induction n as [|n IH]; intros [|c s]; cbn; try lia.
specialize (IH s). unfold substr in IH. lia.
Qed.

Lemma substr_short n : forall s, (String.length s <= n)%nat -> substr 0 n s = s.
Proof.
induction n as [|n IH]; intros [|c s]; cbn; try done; try lia.
intros Hlen. f_equal. apply IH. lia.
Qed.

Lemma substr_prefix n : forall s, String.prefix (substr 0 n s) s = true.
Proof.
induction n as [|n IH]; intros [|c s]; cbn; try done.
destruct (ascii_dec c c); [apply IH|done].
Qed.

(** [s.indexOf(needle) === 0] says that [s] starts with [needle]. *)
Lemma indexOf_zero_prefix needle s :
  indexOf needle s = 0 <-> String.prefix needle s = true.
Proof.
unfold indexOf. destruct s as [|c s]; cbn [String.index].
- destruct needle; cbn; split; done.
- destruct (String.prefix needle (String c s)); [done|].
  destruct (String.index 0 needle s); split; (done || lia).
Qed.

Lemma split_single_line s :
  singleLine s = true -> split "010" s = [s].
Proof.
induction s as [|c s IH]; cbn [split singleLine append]; [done|].
destruct (Ascii.eqb c "010"); cbn [negb andb]; [done|].
intros Hs. by rewrite IH.
Qed.

Lemma split_append_line s rest :
  singleLine s = true ->
  split "010" (s ++ String "010" rest) = s :: split "010" rest.
Proof.
induction s as [|c s IH]; [done|].
change (String c s ++ String "010" rest) with (String c (s ++ String "010" rest)).
cbn [split singleLine].
destruct (Ascii.eqb c "010"); cbn [negb andb]; [done|].
intros Hs. by rewrite IH.
Qed.

(** Splitting at line feeds undoes joining with line feeds. *)
Lemma split_join_lines (lines : list string) :
  lines <> [] ->
  forallb singleLine lines = true ->
  split "010" (join (String "010" EmptyString) lines) = lines.
Proof.
induction lines as [|l lines IH]; [done|]. intros _.
cbn [forallb]. intros [Hl Hrest]%andb_true_iff.
destruct lines as [|l' lines].
- cbn. by apply split_single_line.
- change (join (String "010" EmptyString) (l :: l' :: lines))
    with (l ++ String "010" (join (String "010" EmptyString) (l' :: lines))).
  rewrite split_append_line by done. f_equal. by apply IH.
Qed.

(** X1. A bundle written as lines joined by line feeds: lines without an
    opening marker, the opening marker line, inner lines, a closing line
    and the script. Extraction gives back the trimmed inner lines, joined
    by line feeds. *)
Theorem parsePluginJsBundle_of_joined_lines
    (pre : list string) (opening : string) (inner : list string)
    (closing : string) (post : list string) :
  let lines := (pre ++ opening :: inner ++ closing :: post)%list in
  let bundle := join (String "010" EmptyString) lines in
  forallb singleLine lines = true ->
  existsb isOpeningLine pre = false ->
  isOpeningLine opening = true ->
  inner <> [] ->
  existsb isClosingLine inner = false ->
  isClosingLine closing = true ->
  parsePluginJsBundle bundle
  = inr {| scriptText := bundle;
           manifestText := join (String "010" EmptyString) (List.map trim inner) |}.
Proof.
intros lines bundle Hsingle Hpre Hopen Hne Hinner Hclose.
assert (Hsplit : split "010" bundle = lines).
{ apply split_join_lines; [|done]. subst lines. by destruct pre. }
unfold parsePluginJsBundle. rewrite Hsplit. subst lines.
rewrite scanLines_started_opening, scanLines_in_manifest_inner by done.
rewrite scanLines_in_manifest_closing by done.
destruct inner; [done|reflexivity].
Qed.

(** X2. Scanning stops at the first closing line: a bundle whose first
    opening marker is directly followed by a closing line is rejected with
    ManifestNotFound, whatever comes after, a complete block included. *)
Theorem parsePluginJsBundle_empty_first_block
    (bundle : string) (pre : list string) (opening closing : string)
    (post : list string) :
  split "010" bundle = (pre ++ opening :: closing :: post)%list ->
  existsb isOpeningLine pre = false ->
  isOpeningLine opening = true ->
  isClosingLine closing = true ->
  parsePluginJsBundle bundle = inl ManifestNotFound.
Proof.
intros Hlines Hpre Hopen Hclose.
rewrite (parsePluginJsBundle_of_scan bundle []); [done|].
rewrite Hlines, scanLines_started_opening by done.
by apply scanLines_in_manifest_closing.
Qed.

End Strings.

(** ** The loader and the resolver, further *)

Section LoaderFurther.

Context {PluginManifest : Type}.
Context `{!ManifestValidator PluginManifest, !Libraries, !PathUtils,
          !FsDriver, !BasePluginRunner PluginManifest,
          !PluginMembers PluginManifest}.

Local Abbreviation State := (ServiceState PluginManifest).
Implicit Types (st : State) (plugin : Plugin PluginManifest).

(** X3. An identifier made by [makePluginId] has at most 32 characters
    and is the beginning of the slug; a slug of at most 32 characters is
    the identifier. *)
Theorem makePluginId_bounded (source : string) :
  (String.length (makePluginId source) <= 32)%nat
  /\ String.prefix (makePluginId source) (uslug source) = true
  /\ ((String.length (uslug source) <= 32)%nat -> makePluginId source = uslug source).
Proof.
unfold makePluginId. split; [apply substr_length|].
split; [apply substr_prefix|apply substr_short].
Qed.

(** X4. Whenever the defaulting step hands an object on, that object has
    a truthy [app_min_version]: the one it came with (flag not raised,
    object unchanged) or "1.4" (flag raised). *)
Theorem defaultAppMinVersion_truthy (o manifestObj : JSValue) (notice : bool) :
  defaultAppMinVersion o = inr (manifestObj, notice) ->
  exists v,
    getProp manifestObj "app_min_version" = inr (Some v)
    /\ truthy (Some v) = true
    /\ (if notice then v = JStr "1.4" else manifestObj = o).
Proof.
unfold defaultAppMinVersion.
destruct (getProp o "app_min_version") as [e|field] eqn:Hget; [done|].
destruct (truthy field) eqn:Htruthy; cbn [negb].
- intros [= <- <-]. destruct field as [v|]; [|done]. by exists v.
- destruct o as [| | | |items props|props]; cbn [setProp]; try done;
    intros [= <- <-]; exists (JStr "1.4"); cbn [getProp];
    by rewrite lookupProp_assignProp.
Qed.

(** The entity and the state a load ends with when it passes parsing,
    validation and the duplicate check and the comparison returns [c]. *)
Lemma loadPlugin_success pluginId baseDir manifestText scriptText st
    o manifestObj notice manifest c :
  JSON_parse manifestText = inr o ->
  defaultAppMinVersion o = inr (manifestObj, notice) ->
  manifestFromObject manifestObj = inr manifest ->
  registryRead (plugins_ st) pluginId = None ->
  compareVersions (appVersion_ st) (app_min_version manifest) = inr c ->
  loadPlugin pluginId baseDir manifestText scriptText st
  = (inr (Plugin.mk pluginId (rtrimSlashes baseDir) manifest scriptText
            (negb (c <? 0))
            (if notice then [("1.5", appMinVersionNotice)] else [])),
     mkState (appVersion_ st) (plugins_ st)
       (if c <? 0 then dispatched st else dispatched st ++ [pluginAdd pluginId])%list
       (if c <? 0
        then logged st
             ++ [mkLog LevelInfo
                   ("PluginService: Plugin " ++ quoted pluginId
                    ++ " was disabled because it requires a newer version of Joplin.")
                   None]
        else logged st)%list
       (constructedIds st ++ [pluginId])%list (runnerCalls st)).
Proof.
intros Hparse Hdefault Hvalid Hfresh Hcmp.
unfold loadPlugin. eff_unfold. rewrite Hparse, Hdefault, Hvalid.
cbn. rewrite Hfresh. cbn. rewrite Hcmp.
by destruct (c <? 0), notice.
Qed.

Lemma loadPlugin_inr_inv pluginId baseDir manifestText scriptText st plugin st' :
  loadPlugin pluginId baseDir manifestText scriptText st = (inr plugin, st') ->
  exists o manifestObj notice manifest c,
    JSON_parse manifestText = inr o
    /\ defaultAppMinVersion o = inr (manifestObj, notice)
    /\ manifestFromObject manifestObj = inr manifest
    /\ registryRead (plugins_ st) pluginId = None
    /\ compareVersions (appVersion_ st) (app_min_version manifest) = inr c.
Proof.
unfold loadPlugin. eff_unfold.
destruct (JSON_parse manifestText) as [e|o] eqn:Hparse; [done|].
destruct (defaultAppMinVersion o) as [e|[manifestObj notice]] eqn:Hdefault; [done|].
destruct (manifestFromObject manifestObj) as [e|manifest] eqn:Hvalid; [done|].
cbn. case_bool_decide as Hdup; [done|]. cbn.
apply eq_None_not_Some in Hdup.
destruct (compareVersions _ _) as [e|c] eqn:Hcmp; [done|].
intros _. exists o, manifestObj, notice, manifest, c. repeat split; done.
Qed.

(** What a load that returns did to the store. *)
Lemma loadPlugin_dispatched pluginId baseDir manifestText scriptText st plugin st' :
  loadPlugin pluginId baseDir manifestText scriptText st = (inr plugin, st') ->
  dispatched st'
  = (dispatched st
     ++ if Plugin.enabled plugin then [pluginAdd (Plugin.id plugin)] else [])%list.
Proof.
intros Hload.
destruct (loadPlugin_inr_inv _ _ _ _ _ _ _ Hload)
  as (o & manifestObj & notice & manifest & c & Hparse & Hdefault & Hvalid & Hfresh & Hcmp).
rewrite (loadPlugin_success _ _ _ _ _ _ _ _ _ _ Hparse Hdefault Hvalid Hfresh Hcmp)
  in Hload.
injection Hload as <- <-. cbn. destruct (c <? 0); cbn; [by rewrite app_nil_r|done].
Qed.

(** A load that throws does so before it logs or dispatches. *)
Lemma loadPlugin_throws_quietly pluginId baseDir manifestText scriptText st error st' :
  loadPlugin pluginId baseDir manifestText scriptText st = (inl error, st') ->
  dispatched st' = dispatched st /\ logged st' = logged st.
Proof.
unfold loadPlugin. eff_unfold.
destruct (JSON_parse manifestText) as [e|o]; [by intros [= _ <-]|].
destruct (defaultAppMinVersion o) as [e|[manifestObj notice]]; [by intros [= _ <-]|].
destruct (manifestFromObject manifestObj) as [e|manifest]; [by intros [= _ <-]|].
cbn. case_bool_decide as Hdup; [by intros [= _ <-]|]. cbn.
destruct (compareVersions _ _) as [e|c]; [by intros [= _ <-]|].
by destruct (c <? 0).
Qed.

(** X5. A load that throws has sent nothing to the store and written
    nothing to the log, and has left the registry and the runner alone. *)
Theorem loadPlugin_failure_no_effect
    (pluginId baseDir manifestText scriptText : string) (st : State)
    (error : Exn) (st' : State) :
  loadPlugin pluginId baseDir manifestText scriptText st = (inl error, st') ->
  dispatched st' = dispatched st
  /\ logged st' = logged st
  /\ plugins_ st' = plugins_ st
  /\ runnerCalls st' = runnerCalls st.
Proof.
intros Hload.
destruct (loadPlugin_throws_quietly _ _ _ _ _ _ _ Hload) as [Hd Hlog].
pose proof (loadPlugin_frame pluginId baseDir manifestText scriptText st) as Hframe.
rewrite Hload in Hframe. destruct Hframe as (Hreg & Hrun & _).
by repeat split.
Qed.

(** X6. The deprecation notice goes with the defaulting: for a manifest
    object, the entity of a load that returns has the notice when
    [app_min_version] is missing or falsy, and no notice when it is
    truthy; in the second case the validator was given the object as
    parsed. *)
Theorem loadPlugin_notice_iff_defaulted
    (pluginId baseDir manifestText scriptText : string) (st : State)
    (props : list (string * JSValue)) (plugin : Plugin PluginManifest) (st' : State) :
  JSON_parse manifestText = inr (JObj props) ->
  loadPlugin pluginId baseDir manifestText scriptText st = (inr plugin, st') ->
  if truthy (lookupProp "app_min_version" props)
  then Plugin.notices plugin = []
       /\ manifestFromObject (JObj props) = inr (Plugin.manifest plugin)
  else Plugin.notices plugin = [("1.5", appMinVersionNotice)]
       /\ manifestFromObject (JObj (assignProp "app_min_version" (JStr "1.4") props))
          = inr (Plugin.manifest plugin).
Proof.
intros Hparse Hload.
destruct (loadPlugin_inr_inv _ _ _ _ _ _ _ Hload)
  as (o & manifestObj & notice & manifest & c & Hparse' & Hdefault & Hvalid & Hfresh & Hcmp).
rewrite (loadPlugin_success _ _ _ _ _ _ _ _ _ _ Hparse' Hdefault Hvalid Hfresh Hcmp)
  in Hload.
injection Hload as <- <-. cbn.
rewrite Hparse in Hparse'. injection Hparse' as <-.
unfold defaultAppMinVersion in Hdefault. cbn in Hdefault.
destruct (truthy (lookupProp "app_min_version" props)); cbn in Hdefault;
  injection Hdefault as <- <-; done.
Qed.

Lemma pluginById_eq pluginId st :
  pluginById pluginId st
  = (match registryRead (plugins_ st) pluginId with
     | None => inl (OtherError ("Plugin not found: " ++ pluginId))
     | Some value => inr value
     end, st).
Proof.
unfold pluginById. eff_unfold. by destruct (registryRead (plugins_ st) pluginId).
Qed.

Lemma loadPlugin_not_registered pluginId baseDir manifestText scriptText st plugin st' :
  loadPlugin pluginId baseDir manifestText scriptText st = (inr plugin, st') ->
  registryRead (plugins_ st') (Plugin.id plugin) = None.
Proof.
intros Hload. destruct (loadPlugin_returns _ _ _ _ _ _ _ Hload) as [-> _].
destruct (loadPlugin_inr_inv _ _ _ _ _ _ _ Hload) as (_ & _ & _ & _ & _ & _ & _ & _ & Hfree & _).
pose proof (loadPlugin_frame pluginId baseDir manifestText scriptText st) as Hframe.
rewrite Hload in Hframe. destruct Hframe as [Hreg _]. cbn in Hreg. by rewrite Hreg.
Qed.

(** X7. An entity that was loaded is not found by [pluginById] until it
    is run; once [runPlugin] was called on it, it is found, whether the
    runner resolved or threw. *)
Theorem pluginById_after_load_and_run
    (pluginId baseDir manifestText scriptText : string) (st : State)
    (plugin : Plugin PluginManifest) (st' : State) :
  loadPlugin pluginId baseDir manifestText scriptText st = (inr plugin, st') ->
  pluginById (Plugin.id plugin) st'
  = (inl (OtherError ("Plugin not found: " ++ Plugin.id plugin)), st')
  /\ pluginById (Plugin.id plugin) (runPlugin plugin st').2
     = (inr (StoredEntity plugin), (runPlugin plugin st').2).
Proof.
intros Hload. rewrite !pluginById_eq.
rewrite (loadPlugin_not_registered _ _ _ _ _ _ _ Hload). split; [done|].
rewrite runPlugin_eq. cbn [snd plugins_].
by rewrite (registryRead_own _ _ plugin (lookup_insert_eq _ _ _)).
Qed.

(** X19. While the prototype of the registry is [Object.prototype], an
    identifier that names one of its properties counts as taken: a load
    under it that passes parsing and validation throws the duplicate
    error and changes nothing, on a fresh service too. *)
Theorem loadPlugin_inherited_name_rejected
    (pluginId baseDir manifestText scriptText : string) (st : State)
    (o manifestObj : JSValue) (notice : bool) (manifest : PluginManifest) :
  inheritedFromObject pluginId = true ->
  plugins_ st !! "__proto__" = None ->
  JSON_parse manifestText = inr o ->
  defaultAppMinVersion o = inr (manifestObj, notice) ->
  manifestFromObject manifestObj = inr manifest ->
  loadPlugin pluginId baseDir manifestText scriptText st
  = (inl (DuplicateIdentifier pluginId), st).
Proof.
intros Hinherited Hproto Hparse Hdefault Hvalid.
assert (Htaken : is_Some (registryRead (plugins_ st) pluginId)).
{ unfold registryRead. destruct (plugins_ st !! pluginId); [done|].
  by rewrite Hproto, Hinherited. }
unfold loadPlugin. eff_unfold. rewrite Hparse, Hdefault, Hvalid. cbn.
by rewrite bool_decide_true.
Qed.

End LoaderFurther.

Section ResolverFurther.

Context {PluginManifest : Type}.
Context `{!ManifestValidator PluginManifest, !Libraries, !PathUtils,
          !FsDriver, !BasePluginRunner PluginManifest,
          !PluginMembers PluginManifest}.

Local Abbreviation State := (ServiceState PluginManifest).
Implicit Types (st : State) (plugin : Plugin PluginManifest).

Lemma loadPlugin_entity pluginId baseDir manifestText scriptText st plugin st' :
  loadPlugin pluginId baseDir manifestText scriptText st = (inr plugin, st') ->
  Plugin.id plugin = pluginId
  /\ Plugin.baseDir plugin = rtrimSlashes baseDir
  /\ Plugin.scriptText plugin = scriptText
  /\ constructedIds st' = (constructedIds st ++ [pluginId])%list.
Proof.
intros Hload.
destruct (loadPlugin_inr_inv _ _ _ _ _ _ _ Hload)
  as (o & manifestObj & notice & manifest & c & Hparse & Hdefault & Hvalid & Hfresh & Hcmp).
rewrite (loadPlugin_success _ _ _ _ _ _ _ _ _ _ Hparse Hdefault Hvalid Hfresh Hcmp)
  in Hload.
by injection Hload as <- <-.
Qed.

(** X8. [loadPluginFromString] keeps the identifier it is given as it
    is, and the script text of the entity is the whole bundle, manifest
    block included; the base directory went through [rtrimSlashes] twice;
    exactly one entity was constructed. *)
Theorem loadPluginFromString_entity
    (pluginId baseDir jsBundleString : string) (st : State)
    (plugin : Plugin PluginManifest) (st' : State) :
  loadPluginFromString pluginId baseDir jsBundleString st = (inr plugin, st') ->
  Plugin.id plugin = pluginId
  /\ Plugin.scriptText plugin = jsBundleString
  /\ Plugin.baseDir plugin = rtrimSlashes (rtrimSlashes baseDir)
  /\ constructedIds st' = (constructedIds st ++ [pluginId])%list.
Proof.
unfold loadPluginFromString. eff_unfold. unfold parsePluginJsBundle.
destruct (length _ =? 0)%nat; [done|]. cbn [scriptText manifestText].
intros (? & ? & ? & ?)%loadPlugin_entity. done.
Qed.

Lemma loadPluginFromString_dispatched pluginId baseDir jsBundleString st plugin st' :
  loadPluginFromString pluginId baseDir jsBundleString st = (inr plugin, st') ->
  dispatched st'
  = (dispatched st
     ++ if Plugin.enabled plugin then [pluginAdd (Plugin.id plugin)] else [])%list.
Proof.
unfold loadPluginFromString. eff_unfold.
destruct (parsePluginJsBundle jsBundleString) as [e|r]; [done|].
apply loadPlugin_dispatched.
Qed.

Lemma loadPluginFromPath_dispatched path st plugin st' :
  loadPluginFromPath path st = (inr plugin, st') ->
  dispatched st'
  = (dispatched st
     ++ if Plugin.enabled plugin then [pluginAdd (Plugin.id plugin)] else [])%list.
Proof.
unfold loadPluginFromPath.
destruct (endsWith ".js" (toLowerCase (rtrimSlashes path))).
- eff_unfold.
  destruct (filename _) as [e|name]; [done|].
  destruct (dirname _) as [e|dir]; [done|].
  destruct (fs_readFile _) as [e|content]; [done|].
  apply loadPluginFromString_dispatched.
- eff_unfold.
  destruct (fs_readFile _) as [e|scriptText]; [done|].
  destruct (fs_readFile _) as [e|manifestText]; [done|].
  destruct (filename _) as [e|name]; [done|].
  intros Hload. by rewrite (loadPlugin_dispatched _ _ _ _ _ _ _ Hload).
Qed.

(** A load from a path that throws: nothing was dispatched, and the log
    has at most the line announcing the load of a directory. *)
Lemma loadPluginFromPath_throws_quietly path st error st' :
  loadPluginFromPath path st = (inl error, st') ->
  dispatched st' = dispatched st
  /\ (logged st' = logged st
      \/ logged st'
         = (logged st
            ++ [mkLog LevelInfo
                  ("PluginService: Loading plugin from " ++ rtrimSlashes path) None])%list).
Proof.
unfold loadPluginFromPath.
destruct (endsWith ".js" (toLowerCase (rtrimSlashes path))).
- eff_unfold.
  destruct (filename _) as [e|name]; [intros [= _ <-]; by auto|].
  destruct (dirname _) as [e|dir]; [intros [= _ <-]; by auto|].
  destruct (fs_readFile _) as [e|content]; [intros [= _ <-]; by auto|].
  unfold loadPluginFromString. eff_unfold.
  destruct (parsePluginJsBundle content) as [e|r]; [intros [= _ <-]; by auto|].
  intros (? & ?)%loadPlugin_throws_quietly. auto.
- eff_unfold.
  destruct (fs_readFile _) as [e|scriptText]; [intros [= _ <-]; by auto|].
  destruct (fs_readFile _) as [e|manifestText]; [intros [= _ <-]; by auto|].
  destruct (filename _) as [e|name]; [intros [= _ <-]; by auto|].
  intros (? & ?)%loadPlugin_throws_quietly. auto.
Qed.

(** X9. A load from a path that throws has sent nothing to the store,
    has left the registry and the runner alone and has logged no error;
    the one thing it may have logged is the line announcing the load of a
    directory. *)
Theorem loadPluginFromPath_failure_no_effect
    (path : string) (st : State) (error : Exn) (st' : State) :
  loadPluginFromPath path st = (inl error, st') ->
  dispatched st' = dispatched st
  /\ plugins_ st' = plugins_ st
  /\ runnerCalls st' = runnerCalls st
  /\ errorsLogged st' = errorsLogged st
  /\ (logged st' = logged st
      \/ logged st'
         = (logged st
            ++ [mkLog LevelInfo
                  ("PluginService: Loading plugin from " ++ rtrimSlashes path) None])%list).
Proof.
intros Hload.
destruct (loadPluginFromPath_throws_quietly _ _ _ _ Hload) as [Hd Hlog].
pose proof (loadPluginFromPath_frame path st) as Hframe.
rewrite Hload in Hframe. destruct Hframe as (Hreg & Hrun & _ & Herr).
by repeat split.
Qed.

(** X10. A directory plugin: the identifier is [makePluginId] of the
    name of the directory, so it has at most 32 characters; the files are
    read from the directory itself when it holds a [manifest.json], from
    its [dist] otherwise, and that place is the base directory; the script
    text is the content of [index.js] there. *)
Theorem loadPluginFromPath_directory
    (path : string) (st : State) (plugin : Plugin PluginManifest) (st' : State) :
  endsWith ".js" (toLowerCase (rtrimSlashes path)) = false ->
  loadPluginFromPath path st = (inr plugin, st') ->
  let distPath :=
    if fs_exists (rtrimSlashes path ++ "/manifest.json")
    then rtrimSlashes path else rtrimSlashes path ++ "/dist" in
  (exists name,
     filename (rtrimSlashes path) = inr name /\ Plugin.id plugin = makePluginId name)
  /\ (String.length (Plugin.id plugin) <= 32)%nat
  /\ Plugin.baseDir plugin = rtrimSlashes distPath
  /\ fs_readFile (distPath ++ "/index.js") = inr (Plugin.scriptText plugin).
Proof.
intros Hjs. unfold loadPluginFromPath. rewrite Hjs. eff_unfold.
destruct (fs_exists (rtrimSlashes path ++ "/manifest.json")); cbn [negb]; cbv zeta.
all: match goal with
     | |- context [fs_readFile (?d ++ "/index.js")] =>
         destruct (fs_readFile (d ++ "/index.js")) as [e|scriptText] eqn:Hscript;
         [done|];
         destruct (fs_readFile (d ++ "/manifest.json")) as [e|manifestText]; [done|]
     end.
all: destruct (filename (rtrimSlashes path)) as [e|name] eqn:Hname; [done|].
all: intros (Hid & Hdir & Htext & _)%loadPlugin_entity; rewrite Hid, Hdir, Htext.
all: split; [by exists name|]; split; [apply substr_length|done].
Qed.

End ResolverFurther.

(** ** The batch, further *)

Section BatchFurther.

Context {PluginManifest : Type}.
Context `{!ManifestValidator PluginManifest, !Libraries, !PathUtils,
          !FsDriver, !BasePluginRunner PluginManifest,
          !PluginMembers PluginManifest}.

Local Abbreviation State := (ServiceState PluginManifest).
Implicit Types (st : State) (plugin : Plugin PluginManifest).

Lemma prefix_underscore_directory dir rest :
  String.prefix "_" (dir ++ String "/" rest) = String.prefix "_" dir.
Proof.
destruct dir as [|c dir]; [reflexivity|].
change (String c dir ++ String "/" rest) with (String c (dir ++ String "/" rest)).
assert (Hempty : forall s, String.prefix EmptyString s = true) by (by intros []).
cbn [String.prefix]. destruct (ascii_dec "_" c); [by rewrite !Hempty|reflexivity].
Qed.

Lemma errorsLogged_logError msg error st :
  errorsLogged (logError msg error st).2
  = (errorsLogged st ++ [mkLog LevelError msg (Some error)])%list.
Proof. unfold errorsLogged. cbn. by rewrite List.filter_app. Qed.

(** What an iteration does to the registry, the runner and the store:
    nothing, or one entity stored under a free identifier, handed to the
    runner, and announced when it is enabled. *)
Lemma loadAndRunOne_summary pluginPath st :
  let st2 := (loadAndRunOne pluginPath st).2 in
  (plugins_ st2 = plugins_ st
   /\ runnerCalls st2 = runnerCalls st
   /\ dispatched st2 = dispatched st)
  \/ exists plugin,
       plugins_ st !! Plugin.id plugin = None
       /\ plugins_ st2 = <[Plugin.id plugin := plugin]> (plugins_ st)
       /\ runnerCalls st2 = (runnerCalls st ++ [plugin])%list
       /\ dispatched st2
          = (dispatched st
             ++ if Plugin.enabled plugin then [pluginAdd (Plugin.id plugin)] else [])%list.
Proof.
destruct (decide (indexOf "_" pluginPath = 0)) as [Hskip|Hne].
- left. by rewrite loadAndRunOne_skipped.
- rewrite loadAndRunOne_attempted by done.
  pose proof (loadPluginFromPath_frame pluginPath st) as (Hreg & Hrun & _).
  destruct (loadPluginFromPath pluginPath st) as [[error|plugin] st'] eqn:Hload;
    cbn in Hreg, Hrun.
  + left. apply loadPluginFromPath_throws_quietly in Hload as (Hd & _). cbn. auto.
  + right. exists plugin.
    pose proof (loadPluginFromPath_returns _ _ _ _ Hload) as Hfresh.
    pose proof (loadPluginFromPath_dispatched _ _ _ _ Hload) as Hd.
    rewrite runPlugin_eq. destruct (runner_run plugin); cbn; rewrite Hreg, Hrun, Hd; done.
Qed.

(** A property of the state that every iteration keeps is kept by
    [loadAndRunPlugins], on a list and on a directory. *)
Lemma loadAndRunPlugins_keeps (P : State -> Prop) :
  (forall pluginPath st, P st -> P (loadAndRunOne pluginPath st).2) ->
  forall pluginDirOrPaths st, P st -> P (loadAndRunPlugins pluginDirOrPaths st).2.
Proof.
intros Hstep.
assert (Hloop : forall pluginPaths st, P st -> P (forEachPluginPath pluginPaths st).2).
{ induction pluginPaths as [|pluginPath rest IH]; intros st HP; [done|].
  rewrite forEachPluginPath_cons. by apply IH, Hstep. }
intros [dir|pluginPaths] st HP; [|by apply Hloop].
unfold loadAndRunPlugins, pluginPathsOf. eff_unfold.
destruct (fs_readDirStats dir) as [e|stats]; [done|]. by apply Hloop.
Qed.

Lemma storeAgrees_initialize appVersion : storeAgrees (initialize (PluginManifest := PluginManifest) appVersion).
Proof.
intros pluginId. cbn. split.
- by intros ?%elem_of_nil.
- intros (plugin & Hin & _). by rewrite lookup_empty in Hin.
Qed.

(** X11. After a batch, the store and the registry agree as they did
    before it: PLUGIN_ADD was dispatched for an identifier exactly when
    the registry holds an enabled entity under it. *)
Theorem loadAndRunPlugins_store_agrees
    (pluginDirOrPaths : string + list string) (st : State) :
  storeAgrees st -> storeAgrees (loadAndRunPlugins pluginDirOrPaths st).2.
Proof.
apply (loadAndRunPlugins_keeps storeAgrees). clear st. intros pluginPath st.
intros Hagree.
destruct (loadAndRunOne_summary pluginPath st)
  as [(Hreg & _ & Hd)|(plugin & Hfresh & Hreg & _ & Hd)];
  intros pluginId; rewrite Hreg, Hd; [apply Hagree|].
rewrite elem_of_app, (Hagree pluginId).
destruct (decide (Plugin.id plugin = pluginId)) as [<-|Hne].
- rewrite lookup_insert_eq, Hfresh. split.
  + intros [(old & Hold & _)|Hnew]; [done|]. exists plugin.
    destruct (Plugin.enabled plugin); [done|by apply elem_of_nil in Hnew].
  + intros (entry & [= <-] & ->). right. by apply list_elem_of_singleton.
- rewrite lookup_insert_ne by done. split; [|by left].
  intros [Hold|Hnew]; [done|].
  destruct (Plugin.enabled plugin); [|by apply elem_of_nil in Hnew].
  apply list_elem_of_singleton in Hnew. injection Hnew as Heq. congruence.
Qed.

Lemma registryIsRun_initialize appVersion : registryIsRun (initialize (PluginManifest := PluginManifest) appVersion).
Proof.
repeat split; cbn.
- intros pluginId plugin Hin. by rewrite lookup_empty in Hin.
- by intros plugin ?%elem_of_nil.
- constructor.
Qed.

(** X12. After a batch, as before it, the registry holds exactly the
    entities that were handed to the runner, each under its own
    identifier, and no identifier was handed to the runner twice. *)
Theorem loadAndRunPlugins_registry_is_run
    (pluginDirOrPaths : string + list string) (st : State) :
  registryIsRun st -> registryIsRun (loadAndRunPlugins pluginDirOrPaths st).2.
Proof.
apply (loadAndRunPlugins_keeps registryIsRun). clear st. intros pluginPath st.
intros (Hstored & Hran & Hnodup).
destruct (loadAndRunOne_summary pluginPath st)
  as [(Hreg & Hrun & _)|(plugin & Hfresh & Hreg & Hrun & _)];
  unfold registryIsRun; rewrite Hreg, Hrun; [done|].
repeat split.
- intros pluginId entry. rewrite elem_of_app, list_elem_of_singleton.
  destruct (decide (Plugin.id plugin = pluginId)) as [<-|Hne].
  + rewrite lookup_insert_eq. intros [= <-]. by right.
  + rewrite lookup_insert_ne by done. intros Hin. left. by eapply Hstored.
- intros entry [Hold|Hnew%list_elem_of_singleton]%elem_of_app.
  + assert (Plugin.id plugin <> Plugin.id entry) as Hne.
    { intros Heq. apply Hran in Hold. by rewrite <- Heq, Hfresh in Hold. }
    rewrite lookup_insert_ne by done. by apply Hran.
  + subst entry. apply lookup_insert_eq.
- rewrite fmap_app. apply NoDup_app. split; [done|]. split; [|apply NoDup_singleton].
  intros pluginId (entry & Heq & Hold)%list_elem_of_fmap Hnew%list_elem_of_singleton.
  apply Hran in Hold. rewrite <- Heq, Hnew, Hfresh in Hold. done.
Qed.

End BatchFurther.

Section BatchEdges.

Context {PluginManifest : Type}.
Context `{!ManifestValidator PluginManifest, !Libraries, !PathUtils,
          !FsDriver, !BasePluginRunner PluginManifest,
          !PluginMembers PluginManifest}.

Local Abbreviation State := (ServiceState PluginManifest).
Implicit Types (st : State) (plugin : Plugin PluginManifest).

(** X13. On a directory, [loadAndRunPlugins] throws exactly when the
    directory cannot be listed: the error of [readDirStats] escapes, with
    the state untouched; once the directory is listed, the batch returns. *)
Theorem loadAndRunPlugins_directory_listing (dir : string) (st : State) :
  (forall error, fs_readDirStats dir = inl error ->
     loadAndRunPlugins (inl dir) st = (inl error, st))
  /\ (forall stats, fs_readDirStats dir = inr stats ->
        (loadAndRunPlugins (inl dir) st).1 = inr tt).
Proof.
split.
- intros error Hread. unfold loadAndRunPlugins, pluginPathsOf. eff_unfold.
  by rewrite Hread.
- intros stats Hread. unfold loadAndRunPlugins, pluginPathsOf. eff_unfold.
  rewrite Hread. apply forEachPluginPath_never_throws.
Qed.

(** X14. On a directory, the batch is the batch on this list: the
    entries of the directory that are directories or whose name ends in
    [.js], whatever the case, in the order and number [readDirStats] gives
    them, each as the path [dir/name]. The underscore test gives the same
    answer for all of them, the one it gives for [dir]. *)
Theorem loadAndRunPlugins_directory_candidates
    (dir : string) (st : State) (stats : list Stat) :
  fs_readDirStats dir = inr stats ->
  let kept :=
    List.filter
      (fun stat => stat_isDirectory stat || endsWith ".js" (toLowerCase (stat_path stat)))
      stats in
  let pluginPaths := List.map (fun stat => dir ++ "/" ++ stat_path stat) kept in
  loadAndRunPlugins (inl dir) st = loadAndRunPlugins (inr pluginPaths) st
  /\ (forall pluginPath,
        In pluginPath pluginPaths
        <-> exists stat,
              In stat stats
              /\ pluginPath = dir ++ "/" ++ stat_path stat
              /\ (stat_isDirectory stat = true
                  \/ endsWith ".js" (toLowerCase (stat_path stat)) = true))
  /\ (forall pluginPath,
        In pluginPath pluginPaths ->
        (indexOf "_" pluginPath = 0 <-> indexOf "_" dir = 0)).
Proof.
intros Hread kept pluginPaths.
assert (Hin : forall pluginPath,
          In pluginPath pluginPaths
          <-> exists stat,
                In stat stats
                /\ pluginPath = dir ++ "/" ++ stat_path stat
                /\ (stat_isDirectory stat
                    || endsWith ".js" (toLowerCase (stat_path stat))) = true).
{ intros pluginPath. subst pluginPaths kept. rewrite in_map_iff. split.
  - intros (stat & <- & [Hstat Hkeep]%filter_In). by exists stat.
  - intros (stat & Hstat & -> & Hkeep). exists stat. by rewrite filter_In. }
split; [|split].
- unfold loadAndRunPlugins, pluginPathsOf. eff_unfold. by rewrite Hread.
- intros pluginPath. rewrite Hin. by setoid_rewrite orb_true_iff.
- intros pluginPath (stat & _ & -> & _)%Hin.
  rewrite !indexOf_zero_prefix.
  change (dir ++ "/" ++ stat_path stat) with (dir ++ String "/" (stat_path stat)).
  by rewrite prefix_underscore_directory.
Qed.

(** X15. A candidate whose load returns and whose run throws: the batch
    returns all the same, the entity stays in the registry, it was handed
    to the runner once, and one error is logged, with the path and the
    error of the runner. *)
Theorem loadAndRunPlugins_run_failure
    (pluginPath : string) (st : State) (plugin : Plugin PluginManifest)
    (st' : State) (error : Exn) :
  indexOf "_" pluginPath <> 0 ->
  loadPluginFromPath pluginPath st = (inr plugin, st') ->
  runner_run plugin = Some error ->
  let final := loadAndRunPlugins (inr [pluginPath]) st in
  final.1 = inr tt
  /\ plugins_ final.2 !! Plugin.id plugin = Some plugin
  /\ runnerCalls final.2 = (runnerCalls st ++ [plugin])%list
  /\ errorsLogged final.2 = (errorsLogged st ++ [failedEntry pluginPath error])%list.
Proof.
intros Hne Hload Hrun final.
pose proof (loadPluginFromPath_frame pluginPath st) as Hframe.
rewrite Hload in Hframe. destruct Hframe as (_ & Hcalls & _ & Herr).
cbn in Hcalls, Herr.
subst final. rewrite loadAndRunPlugins_paths, forEachPluginPath_cons.
cbn [forEachPluginPath]. unfold mret, Eff_ret. cbn [fst snd].
rewrite loadAndRunOne_attempted, Hload, runPlugin_eq, Hrun by done.
split; [done|]. split; [cbn; apply lookup_insert_eq|]. split; [cbn; by rewrite Hcalls|].
rewrite errorsLogged_logError. unfold errorsLogged in *. cbn. by rewrite Herr.
Qed.

Lemma loadPlugin_again pluginId baseDir manifestText scriptText st plugin st' st2 :
  loadPlugin pluginId baseDir manifestText scriptText st = (inr plugin, st') ->
  is_Some (plugins_ st2 !! pluginId) ->
  loadPlugin pluginId baseDir manifestText scriptText st2
  = (inl (DuplicateIdentifier pluginId), st2).
Proof.
intros (o & manifestObj & notice & manifest & c & Hparse & Hdefault & Hvalid & _)
  %loadPlugin_inr_inv [stored Hstored].
unfold loadPlugin. eff_unfold. rewrite Hparse, Hdefault, Hvalid. cbn.
by rewrite (registryRead_own _ _ _ Hstored).
Qed.

Lemma loadPluginFromPath_again path st plugin st' st2 :
  loadPluginFromPath path st = (inr plugin, st') ->
  is_Some (plugins_ st2 !! Plugin.id plugin) ->
  exists st2',
    loadPluginFromPath path st2 = (inl (DuplicateIdentifier (Plugin.id plugin)), st2').
Proof.
unfold loadPluginFromPath.
destruct (endsWith ".js" (toLowerCase (rtrimSlashes path))).
- eff_unfold.
  destruct (filename _) as [e|name]; [done|].
  destruct (dirname _) as [e|dir]; [done|].
  destruct (fs_readFile _) as [e|content]; [done|].
  unfold loadPluginFromString. eff_unfold.
  destruct (parsePluginJsBundle content) as [e|r]; [done|].
  intros Hload Hstored.
  destruct (loadPlugin_returns _ _ _ _ _ _ _ Hload) as [Hid _]. rewrite Hid in *.
  eexists. by eapply loadPlugin_again.
- eff_unfold.
  destruct (fs_readFile _) as [e|scriptText]; [done|].
  destruct (fs_readFile _) as [e|manifestText]; [done|].
  destruct (filename _) as [e|name]; [done|].
  intros Hload Hstored.
  destruct (loadPlugin_returns _ _ _ _ _ _ _ Hload) as [Hid _]. rewrite Hid in *.
  eexists. by eapply loadPlugin_again.
Qed.

(** X16. A path listed twice: when its first load returns, the second
    occurrence is rejected as a duplicate. It changes nothing in the
    registry, the runner or the store and adds one error to the log,
    DuplicateIdentifier with the identifier of the entity. *)
Theorem loadAndRunPlugins_same_path_twice
    (pluginPath : string) (st : State) (plugin : Plugin PluginManifest) (st' : State) :
  indexOf "_" pluginPath <> 0 ->
  loadPluginFromPath pluginPath st = (inr plugin, st') ->
  let once := (loadAndRunPlugins (inr [pluginPath]) st).2 in
  let twice := (loadAndRunPlugins (inr [pluginPath; pluginPath]) st).2 in
  plugins_ twice = plugins_ once
  /\ runnerCalls twice = runnerCalls once
  /\ dispatched twice = dispatched once
  /\ errorsLogged twice
     = (errorsLogged once
        ++ [failedEntry pluginPath (DuplicateIdentifier (Plugin.id plugin))])%list.
Proof.
intros Hne Hload once twice.
assert (Honce : once = (loadAndRunOne pluginPath st).2).
{ subst once. by rewrite loadAndRunPlugins_paths, forEachPluginPath_cons. }
assert (Htwice : twice = (loadAndRunOne pluginPath once).2).
{ subst twice. rewrite loadAndRunPlugins_paths, !forEachPluginPath_cons.
  by rewrite Honce. }
destruct (loadAndRunOne_loaded pluginPath st plugin st' Hne Hload) as [Hstored _].
rewrite <- Honce in Hstored.
destruct (loadPluginFromPath_again pluginPath st plugin st' once Hload)
  as [st2 Hagain]; [by rewrite Hstored|].
pose proof (loadPluginFromPath_frame pluginPath once) as Hframe.
rewrite Hagain in Hframe. destruct Hframe as (Hreg & Hcalls & _ & Herr).
cbn in Hreg, Hcalls, Herr.
destruct (loadPluginFromPath_throws_quietly _ _ _ _ Hagain) as (Hd & _).
rewrite Htwice, loadAndRunOne_attempted, Hagain by done.
split; [done|]. split; [done|]. split; [done|].
by rewrite errorsLogged_logError, Herr.
Qed.

(** X17. A list in which every path starts with an underscore: the
    batch returns and its whole effect is one informational entry per
    path, in order. Nothing is read, stored, run or dispatched. *)
Theorem loadAndRunPlugins_all_skipped (pluginPaths : list string) (st : State) :
  Forall (fun pluginPath => indexOf "_" pluginPath = 0) pluginPaths ->
  loadAndRunPlugins (inr pluginPaths) st
  = (inr tt,
     mkState (appVersion_ st) (plugins_ st) (dispatched st)
       (logged st ++ (skippedEntry <$> pluginPaths))%list
       (constructedIds st) (runnerCalls st)).
Proof.
rewrite loadAndRunPlugins_paths. revert st.
induction pluginPaths as [|pluginPath rest IH]; intros st Hall.
- destruct st. cbn. by rewrite app_nil_r.
- apply Forall_cons in Hall as [Hskip Hrest].
  rewrite forEachPluginPath_cons, loadAndRunOne_skipped, IH by done.
  cbn. by rewrite <- app_assoc.
Qed.

Lemma loadAndRunOne_errors pluginPath st :
  errorsLogged (loadAndRunOne pluginPath st).2 = errorsLogged st
  \/ exists error,
       errorsLogged (loadAndRunOne pluginPath st).2
       = (errorsLogged st ++ [failedEntry pluginPath error])%list.
Proof.
destruct (decide (indexOf "_" pluginPath = 0)) as [Hskip|Hne].
- left. rewrite loadAndRunOne_skipped by done.
  unfold errorsLogged. cbn. rewrite List.filter_app. cbn. apply app_nil_r.
- rewrite loadAndRunOne_attempted by done.
  pose proof (loadPluginFromPath_frame pluginPath st) as (_ & _ & _ & Herr).
  destruct (loadPluginFromPath pluginPath st) as [[error|plugin] st']; cbn in Herr.
  + right. exists error. by rewrite errorsLogged_logError, Herr.
  + rewrite runPlugin_eq. destruct (runner_run plugin) as [error|].
    * right. exists error. rewrite errorsLogged_logError. by rewrite <- Herr.
    * by left.
Qed.

(** X18. Every error a batch on a list adds to the log is the entry of
    one of the candidates: its message ends with a path of the list. *)
Theorem loadAndRunPlugins_errors_name_candidates
    (pluginPaths : list string) (st : State) (entry : LogEntry) :
  entry ∈ errorsLogged (loadAndRunPlugins (inr pluginPaths) st).2 ->
  entry ∈ errorsLogged st
  \/ exists pluginPath error,
       pluginPath ∈ pluginPaths /\ entry = failedEntry pluginPath error.
Proof.
rewrite loadAndRunPlugins_paths. revert st.
induction pluginPaths as [|pluginPath rest IH]; intros st; [by left|].
rewrite forEachPluginPath_cons.
intros [Hold|(candidate & error & Hin & ->)]%IH.
- destruct (loadAndRunOne_errors pluginPath st) as [Heq|[error Heq]];
    rewrite Heq in Hold; [by left|].
  apply elem_of_app in Hold as [Hold|Hnew%list_elem_of_singleton]; [by left|].
  subst entry. right. exists pluginPath, error. split; [apply list_elem_of_here|done].
- right. exists candidate, error. split; [by apply list_elem_of_further|done].
Qed.

End BatchEdges.

(** ** The service on the small host *)

Import Demo.

Lemma loadPlugin_version_gate_witness :
  (exists plugin st',
     loadPlugin "tool-box" "/plugins/Tool Box" manifest20Text
       "joplin.plugins.register({});" (initialize "1.0") = (inr plugin, st')
     /\ Plugin.enabled plugin = false /\ dispatched st' = [])
  /\ (exists plugin st',
        loadPlugin "tool-box" "/plugins/Tool Box" manifest20Text
          "joplin.plugins.register({});" (initialize "2.1") = (inr plugin, st')
        /\ Plugin.enabled plugin = true
        /\ dispatched st'
           = [mkAction "PLUGIN_ADD" (mkEntry (Plugin.id plugin) ∅ ∅)]).
Proof.
  split.
  - destruct (loadPlugin_version_gate "tool-box" "/plugins/Tool Box" manifest20Text
                "joplin.plugins.register({});" (initialize "1.0")
                (JObj [("app_min_version", JStr "2.0")])
                (JObj [("app_min_version", JStr "2.0")]) false (mkManifest "2.0") (-1))
      as (plugin & st' & Hload & Hlt & _); try reflexivity.
    exists plugin, st'. split; [exact Hload|]. apply Hlt. reflexivity.
  - destruct (loadPlugin_version_gate "tool-box" "/plugins/Tool Box" manifest20Text
                "joplin.plugins.register({});" (initialize "2.1")
                (JObj [("app_min_version", JStr "2.0")])
                (JObj [("app_min_version", JStr "2.0")]) false (mkManifest "2.0") 1)
      as (plugin & st' & Hload & _ & Hge); try reflexivity.
    exists plugin, st'. split; [exact Hload|]. apply Hge. discriminate.
Defined.

Lemma loadPlugin_default_app_min_version_witness :
  exists plugin st',
    loadPlugin "notes" "/plugins" emptyManifestText "joplin.plugins.register({});"
      (initialize "1.5") = (inr plugin, st')
    /\ Plugin.manifest plugin = mkManifest "1.4"
    /\ Plugin.notices plugin = [("1.5", appMinVersionNotice)]
    /\ Plugin.enabled plugin = true.
Proof.
  destruct (loadPlugin_default_app_min_version "notes" "/plugins" emptyManifestText
              "joplin.plugins.register({});" (initialize "1.5") [])
    as (_ & _ & _ & Hload); [reflexivity|reflexivity|].
  apply (Hload (mkManifest "1.4") 1); reflexivity.
Defined.

Lemma loadPlugin_registry_unchanged_witness :
  exists plugin st',
    loadPlugin "tool-box" "/plugins/Tool Box" manifest20Text
      "joplin.plugins.register({});" (initialize "1.0") = (inr plugin, st')
    /\ Plugin.enabled plugin = false
    /\ plugins_ st' !! Plugin.id plugin = None.
Proof.
  eexists _, _. split; [vm_compute; reflexivity|]. split; [reflexivity|].
  apply (proj2 (loadPlugin_registry_unchanged "tool-box" "/plugins/Tool Box"
                  manifest20Text "joplin.plugins.register({});" (initialize "1.0"))).
  vm_compute. reflexivity.
Defined.

Lemma loadAndRunPlugins_isolates_failure_witness :
  let pluginPaths := ["/plugins/MyPlugin.js"; "/plugins/broken.js"; "/plugins/notes.js"] in
  let final := loadAndRunPlugins (inr pluginPaths) (initialize "1.5") in
  final.1 = inr tt
  /\ errorsLogged final.2
     = [mkLog LevelError "PluginService: Could not load plugin: /plugins/broken.js"
          (Some ManifestNotFound)]
  /\ (Plugin.id <$> runnerCalls final.2) = ["MyPlugin"; "notes"].
Proof.
  split; [|split; vm_compute; reflexivity].
  apply (loadAndRunPlugins_isolates_failure
           ["/plugins/MyPlugin.js"] "/plugins/broken.js" ["/plugins/notes.js"]
           (initialize "1.5") ManifestNotFound
           (loadAndRunPlugins (inr ["/plugins/MyPlugin.js"]) (initialize "1.5")).2).
  - discriminate.
  - vm_compute. reflexivity.
Defined.

Lemma loadAndRunPlugins_never_overwrites_witness :
  let st := (loadAndRunPlugins (inr ["/plugins/MyPlugin.js"]) (initialize "1.5")).2 in
  exists plugin,
    plugins_ st !! "MyPlugin" = Some plugin
    /\ plugins_ (loadAndRunPlugins (inl "/plugins") st).2 !! "MyPlugin" = Some plugin.
Proof.
  eexists. split; [vm_compute; reflexivity|].
  apply (proj1 (loadAndRunPlugins_never_overwrites (inl "/plugins") _)).
  vm_compute. reflexivity.
Defined.

(** C9 fails as stated: two bundles loaded under the identifier [dup]
    before either is run are both accepted, and running the second
    replaces the entry stored by running the first. *)
Lemma runPlugin_replaces_stored_entry :
  let r1 := loadPluginFromString "dup" "/a" bundleText (initialize "1.5") in
  let r2 := loadPluginFromString "dup" "/b" bundleText r1.2 in
  exists plugin1 plugin2,
    r1.1 = inr plugin1 /\ r2.1 = inr plugin2
    /\ Plugin.baseDir plugin1 = "/a" /\ Plugin.baseDir plugin2 = "/b"
    /\ plugins_ (runPlugin plugin1 r2.2).2 !! "dup" = Some plugin1
    /\ plugins_ (runPlugin plugin2 (runPlugin plugin1 r2.2).2).2 !! "dup" = Some plugin2.
Proof.
  eexists _, _. split; [vm_compute; reflexivity|]. split; [vm_compute; reflexivity|].
  repeat split; vm_compute; reflexivity.
Qed.

(** C4, on the code. The candidate [/plugins/_off.js], whose base name
    starts with an underscore, is loaded, registered and run, whether it
    comes from the enumeration of [/plugins] or from a list: the test is
    made on the whole path, where the first underscore is at position 9. *)
Theorem loadAndRunPlugins_underscore_base_name_loaded :
  let fromDirectory := (loadAndRunPlugins (inl "/plugins") (initialize "1.5")).2 in
  let fromList := (loadAndRunPlugins (inr ["/plugins/_off.js"]) (initialize "1.5")).2 in
  basename "/plugins/_off.js" = "_off.js"
  /\ indexOf "_" "/plugins/_off.js" = 9
  /\ is_Some (plugins_ fromDirectory !! "_off")
  /\ (Plugin.id <$> runnerCalls fromDirectory) = ["MyPlugin"; "_off"; "notes"; "tool-box"]
  /\ is_Some (plugins_ fromList !! "_off")
  /\ (Plugin.id <$> runnerCalls fromList) = ["_off"]
  /\ logged fromList = [].
Proof.
  repeat split; try (vm_compute; reflexivity); vm_compute; eexists; reflexivity.
Qed.

(** C3, on the code. The script files [/plugins/MyPlugin.js] and
    [/extra/myplugin.js] have names with the same normalization, yet both
    are loaded, registered and run, under the identifiers [MyPlugin] and
    [myplugin], and no error is logged. The directories [Tool Box] and
    [tool-box], whose names also have one normalization, collide: the
    second is rejected as a duplicate. *)
Theorem loadAndRunPlugins_script_files_same_normalization_both_loaded :
  let final :=
    loadAndRunPlugins (inr ["/plugins/MyPlugin.js"; "/extra/myplugin.js"])
      (initialize "1.5") in
  let directories :=
    loadAndRunPlugins (inr ["/plugins/Tool Box"; "/plugins/tool-box"])
      (initialize "1.5") in
  makePluginId "MyPlugin" = makePluginId "myplugin"
  /\ final.1 = inr tt
  /\ (Plugin.id <$> runnerCalls final.2) = ["MyPlugin"; "myplugin"]
  /\ is_Some (plugins_ final.2 !! "MyPlugin")
  /\ is_Some (plugins_ final.2 !! "myplugin")
  /\ errorsLogged final.2 = []
  /\ makePluginId "Tool Box" = makePluginId "tool-box"
  /\ (Plugin.id <$> runnerCalls directories.2) = ["tool-box"]
  /\ errorsLogged directories.2
     = [mkLog LevelError "PluginService: Could not load plugin: /plugins/tool-box"
          (Some (DuplicateIdentifier "tool-box"))].
Proof.
repeat split; try (vm_compute; reflexivity); vm_compute; eexists; reflexivity.
Qed.

(** C6, on the code. For the script file [/plugins/MyPlugin.js] the
    identifier of the entity is the base name [MyPlugin] as it stands,
    not its normalization [myplugin]; the base directory is the directory
    of the file and the script text is the content of the file. *)
Theorem loadPluginFromPath_script_file_id_not_normalized :
  exists plugin st',
    loadPluginFromPath "/plugins/MyPlugin.js" (initialize "1.5") = (inr plugin, st')
    /\ Plugin.id plugin = "MyPlugin"
    /\ makePluginId "MyPlugin" = "myplugin"
    /\ Plugin.baseDir plugin = "/plugins"
    /\ Plugin.scriptText plugin = bundleText.
Proof.
  eexists _, _. split; [vm_compute; reflexivity|]. repeat split.
Qed.

(** ** Further properties on the small host *)

Lemma parsePluginJsBundle_of_joined_lines_witness :
  let bundle :=
    join nl ["// bundle"; "  /* joplin-manifest:"; "  {"; "  }"; "  */"; "run();"] in
  parsePluginJsBundle bundle
  = inr {| scriptText := bundle; manifestText := join nl ["{"; "}"] |}.
Proof.
apply (parsePluginJsBundle_of_joined_lines
         ["// bundle"] "  /* joplin-manifest:" ["  {"; "  }"] "  */" ["run();"]);
  try reflexivity.
discriminate.
Defined.

Lemma parsePluginJsBundle_empty_first_block_witness :
  parsePluginJsBundle
    (join nl ["/* joplin-manifest:"; "*/"; "/* joplin-manifest:"; "{}"; "*/"])
  = inl ManifestNotFound.
Proof.
apply (parsePluginJsBundle_empty_first_block _
         [] "/* joplin-manifest:" "*/" ["/* joplin-manifest:"; "{}"; "*/"]);
  reflexivity.
Defined.

Lemma makePluginId_bounded_witness :
  (String.length (makePluginId "A plugin with a very long directory name 2020") <= 32)%nat
  /\ makePluginId "Tool Box" = uslug "Tool Box".
Proof.
split.
- apply (proj1 (makePluginId_bounded _)).
- apply (proj2 (proj2 (makePluginId_bounded "Tool Box"))). vm_compute. lia.
Defined.

Lemma defaultAppMinVersion_truthy_witness :
  exists v,
    getProp (JObj [("name", JStr "notes"); ("app_min_version", JStr "1.4")])
      "app_min_version" = inr (Some v)
    /\ truthy (Some v) = true
    /\ v = JStr "1.4".
Proof.
apply (defaultAppMinVersion_truthy (JObj [("name", JStr "notes")]) _ true).
reflexivity.
Defined.

Lemma loadPlugin_failure_no_effect_witness :
  let st := initialize "1.5" in
  let st' := (loadPlugin "notes" "/plugins" "{ not json" "run();" st).2 in
  dispatched st' = dispatched st
  /\ logged st' = logged st
  /\ plugins_ st' = plugins_ st
  /\ runnerCalls st' = runnerCalls st.
Proof.
apply (loadPlugin_failure_no_effect "notes" "/plugins" "{ not json" "run();"
         (initialize "1.5") (InvalidManifestJson "Unexpected token in JSON")).
vm_compute. reflexivity.
Defined.

Lemma loadPlugin_notice_iff_defaulted_witness :
  exists plugin st',
    loadPlugin "tool-box" "/plugins/Tool Box" manifest20Text "run();" (initialize "2.1")
    = (inr plugin, st')
    /\ Plugin.notices plugin = []
    /\ manifestFromObject (JObj [("app_min_version", JStr "2.0")])
       = inr (Plugin.manifest plugin).
Proof.
eexists _, _. split; [vm_compute; reflexivity|].
eapply (loadPlugin_notice_iff_defaulted "tool-box" "/plugins/Tool Box" manifest20Text
         "run();" (initialize "2.1") [("app_min_version", JStr "2.0")]);
  vm_compute; reflexivity.
Defined.

Lemma pluginById_after_load_and_run_witness :
  exists plugin st',
    loadPlugin "notes" "/plugins" emptyManifestText "run();" (initialize "1.5")
    = (inr plugin, st')
    /\ pluginById "notes" st' = (inl (OtherError "Plugin not found: notes"), st')
    /\ pluginById "notes" (runPlugin plugin st').2
       = (inr (StoredEntity plugin), (runPlugin plugin st').2).
Proof.
eexists _, _. split; [vm_compute; reflexivity|].
match goal with
| |- context [runPlugin ?plugin ?st'] =>
    apply (pluginById_after_load_and_run "notes" "/plugins" emptyManifestText "run();"
             (initialize "1.5") plugin st')
end.
vm_compute. reflexivity.
Defined.

Lemma loadPluginFromString_entity_witness :
  exists plugin st',
    loadPluginFromString "My Plugin" "/plugins/my//" bundleText (initialize "1.5")
    = (inr plugin, st')
    /\ Plugin.id plugin = "My Plugin"
    /\ Plugin.scriptText plugin = bundleText
    /\ Plugin.baseDir plugin = "/plugins/my"
    /\ constructedIds st' = ["My Plugin"].
Proof.
eexists _, _. split; [vm_compute; reflexivity|].
match goal with
| |- Plugin.id ?plugin = _ /\ _ /\ _ /\ constructedIds ?st' = _ =>
    assert (Hload : loadPluginFromString "My Plugin" "/plugins/my//" bundleText
                      (initialize "1.5") = (inr plugin, st'))
      by (vm_compute; reflexivity);
    exact (loadPluginFromString_entity "My Plugin" "/plugins/my//" bundleText
             (initialize "1.5") plugin st' Hload)
end.
Defined.

Lemma loadPluginFromPath_failure_no_effect_witness :
  let st := initialize "1.5" in
  let st' := (loadPluginFromPath "/plugins/broken.js" st).2 in
  dispatched st' = dispatched st
  /\ plugins_ st' = plugins_ st
  /\ runnerCalls st' = runnerCalls st.
Proof.
destruct (loadPluginFromPath_failure_no_effect "/plugins/broken.js" (initialize "1.5")
            ManifestNotFound (loadPluginFromPath "/plugins/broken.js" (initialize "1.5")).2)
  as (Hd & Hreg & Hrun & _ & _); [vm_compute; reflexivity|].
by repeat split.
Defined.

Lemma loadPluginFromPath_directory_witness :
  exists plugin st',
    loadPluginFromPath "/plugins/tool-box/" (initialize "1.5") = (inr plugin, st')
    /\ Plugin.id plugin = "tool-box"
    /\ Plugin.baseDir plugin = "/plugins/tool-box/dist"
    /\ Plugin.scriptText plugin = "joplin.plugins.register({});".
Proof.
eexists _, _. split; [vm_compute; reflexivity|].
match goal with
| |- Plugin.id ?plugin = _ /\ _ =>
    assert (Hload : loadPluginFromPath "/plugins/tool-box/" (initialize "1.5")
                    = (inr plugin, (loadPluginFromPath "/plugins/tool-box/"
                                      (initialize "1.5")).2))
      by (vm_compute; reflexivity);
    assert (Hjs : endsWith ".js" (toLowerCase (rtrimSlashes "/plugins/tool-box/")) = false)
      by reflexivity;
    destruct (loadPluginFromPath_directory "/plugins/tool-box/" (initialize "1.5")
                plugin _ Hjs Hload)
      as ((name & Hname & Hid) & Hlen & Hdir & Hscript)
end.
repeat split.
Defined.

Lemma loadAndRunPlugins_store_agrees_witness :
  storeAgrees (loadAndRunPlugins (inl "/plugins") (initialize "1.5")).2.
Proof. apply loadAndRunPlugins_store_agrees, storeAgrees_initialize. Defined.

Lemma loadAndRunPlugins_registry_is_run_witness :
  registryIsRun (loadAndRunPlugins (inl "/plugins") (initialize "1.5")).2.
Proof. apply loadAndRunPlugins_registry_is_run, registryIsRun_initialize. Defined.

Lemma loadAndRunPlugins_directory_listing_witness :
  loadAndRunPlugins (inl "/nowhere") (initialize "1.5")
  = (inl (IOError "ENOENT: no such file or directory, scandir '/nowhere'"),
     initialize "1.5").
Proof.
apply (proj1 (loadAndRunPlugins_directory_listing "/nowhere" (initialize "1.5"))).
reflexivity.
Defined.

Lemma loadAndRunPlugins_directory_candidates_witness :
  let pluginPaths :=
    [ "/plugins/MyPlugin.js"; "/plugins/_off.js"; "/plugins/broken.js";
      "/plugins/notes.js"; "/plugins/Tool Box"; "/plugins/tool-box" ] in
  loadAndRunPlugins (inl "/plugins") (initialize "1.5")
  = loadAndRunPlugins (inr pluginPaths) (initialize "1.5")
  /\ (forall pluginPath,
        In pluginPath pluginPaths -> indexOf "_" pluginPath = 0 <-> False).
Proof.
destruct (loadAndRunPlugins_directory_candidates "/plugins" (initialize "1.5")
            [ mkStat "MyPlugin.js" false; mkStat "_off.js" false;
              mkStat "broken.js" false; mkStat "notes.js" false;
              mkStat "README.md" false;
              mkStat "Tool Box" true; mkStat "tool-box" true ])
  as (Heq & _ & Hskip); [reflexivity|].
split; [exact Heq|].
intros pluginPath Hp. rewrite (Hskip pluginPath Hp). split; [discriminate|done].
Defined.

Lemma loadAndRunPlugins_run_failure_witness :
  let final :=
    loadAndRunPlugins (BasePluginRunner0 := rejectingRunner)
      (inr ["/plugins/notes.js"]) (initialize "1.5") in
  final.1 = inr tt
  /\ is_Some (plugins_ final.2 !! "notes")
  /\ errorsLogged final.2
     = [failedEntry "/plugins/notes.js" (OtherError "notes: the plugin script threw")].
Proof.
destruct (loadAndRunPlugins_run_failure (BasePluginRunner0 := rejectingRunner)
            "/plugins/notes.js" (initialize "1.5")
            (Plugin.mk "notes" "/plugins" (mkManifest "1.4") bundleText true
               [("1.5", appMinVersionNotice)])
            (loadPluginFromPath "/plugins/notes.js" (initialize "1.5")).2
            (OtherError "notes: the plugin script threw"))
  as (Hok & Hstored & _ & Herr);
  [discriminate|vm_compute; reflexivity|reflexivity|].
split; [exact Hok|]. split; [by eexists|exact Herr].
Defined.

Lemma loadAndRunPlugins_same_path_twice_witness :
  let once := (loadAndRunPlugins (inr ["/plugins/notes.js"]) (initialize "1.5")).2 in
  let twice :=
    (loadAndRunPlugins (inr ["/plugins/notes.js"; "/plugins/notes.js"])
       (initialize "1.5")).2 in
  plugins_ twice = plugins_ once
  /\ runnerCalls twice = runnerCalls once
  /\ dispatched twice = dispatched once
  /\ errorsLogged twice
     = (errorsLogged once
        ++ [failedEntry "/plugins/notes.js" (DuplicateIdentifier "notes")])%list.
Proof.
apply (loadAndRunPlugins_same_path_twice "/plugins/notes.js" (initialize "1.5")
         (Plugin.mk "notes" "/plugins" (mkManifest "1.4") bundleText true
            [("1.5", appMinVersionNotice)])
         (loadPluginFromPath "/plugins/notes.js" (initialize "1.5")).2).
- discriminate.
- vm_compute. reflexivity.
Defined.

Lemma loadAndRunPlugins_all_skipped_witness :
  loadAndRunPlugins (inr ["_draft"; "_old/index.js"]) (initialize "1.5")
  = (inr tt,
     mkState "1.5" ∅ [] [skippedEntry "_draft"; skippedEntry "_old/index.js"] [] []).
Proof.
apply (loadAndRunPlugins_all_skipped ["_draft"; "_old/index.js"] (initialize "1.5")).
repeat constructor.
Defined.

Lemma loadAndRunPlugins_errors_name_candidates_witness :
  let pluginPaths := ["/plugins/MyPlugin.js"; "/plugins/broken.js"] in
  let entry := failedEntry "/plugins/broken.js" ManifestNotFound in
  entry ∈ errorsLogged (initialize (PluginManifest := Manifest) "1.5")
  \/ exists pluginPath error,
       pluginPath ∈ pluginPaths /\ entry = failedEntry pluginPath error.
Proof.
apply (loadAndRunPlugins_errors_name_candidates
         ["/plugins/MyPlugin.js"; "/plugins/broken.js"] (initialize "1.5")).
vm_compute. constructor.
Defined.

Lemma loadPlugin_inherited_name_rejected_witness :
  loadPlugin "constructor" "/plugins/constructor" emptyManifestText "run();"
    (initialize "1.5")
  = (inl (DuplicateIdentifier "constructor"), initialize "1.5").
Proof.
apply (loadPlugin_inherited_name_rejected "constructor" "/plugins/constructor"
         emptyManifestText "run();" (initialize "1.5")
         (JObj []) (JObj [("app_min_version", JStr "1.4")]) true (mkManifest "1.4"));
  reflexivity.
Defined.
